(** * CrashScope: incident enrichment and risk scoring

    A shallow embedding of the Python sources of CrashScope
    (cache manager, weather / road / temporal extractors, feature engine,
    incident de-duplication and risk scoring) together with the properties
    that the design document states about them.

    Conventions of the embedding:
    - Python [int] values are [Z]; JSON / float readings that the code only
      compares against constants (temperatures, precipitation, clock
      readings) are rationals [Q], compared exactly;
    - Python [str] values are [string];
    - a [dict] used as a finite map is a [gmap]; a [dict] whose insertion
      order is observed is an association list;
    - [None] / a missing key is [option]. *)

From Stdlib Require Import ZArith QArith Lqa String Ascii List Bool Lia.
From stdpp Require Import base option list gmap strings fin_maps.

Local Open Scope string_scope.
Local Open Scope Z_scope.
Local Open Scope list_scope.

(** ** Comparisons on rationals, as booleans *)

(** [x > y] and [x < y] on numbers, as Python evaluates them in a condition. *)
Definition Qgtb (x y : Q) : bool := negb (Qle_bool x y).
Definition Qltb (x y : Q) : bool := negb (Qle_bool y x).

(** * Feature records *)

(** Output of [WeatherFeatureExtractor.extract_features]. *)
Record WeatherFeatures := {
  temperature : Q;
  precipitation : Q;
  wind_speed : Q;
  weather_code : Z;
  weather_condition : string;
  is_wet : bool
}.

(** Output of [TemporalFeatureExtractor.extract_features]. *)
Record TemporalFeatures := {
  hour : Z;
  day_of_week : Z;
  month : Z;
  year : Z;
  is_weekend : bool;
  is_rush_hour : bool;
  is_night : bool;
  season : string;
  time_period : string
}.

(** Output of [RoadFeatureExtractor.extract_features]. *)
Record RoadFeatures := {
  speed_limit : Z;
  road_type : string;
  lanes : Z;
  surface : string;
  lit : string
}.

(** The dictionary built by [CrashScopeFeatureEngine.engineer_features].
    The three [features.update(...)] calls merge dictionaries whose key sets
    are pairwise disjoint, so the merged dictionary is kept as the three
    sub-records plus the engine's own keys. *)
Record FeatureRecord := {
  weather : WeatherFeatures;
  temporal : TemporalFeatures;
  road : RoadFeatures;
  area_type : string;
  lat : Q;
  lon : Q;
  aantal_partijen : Z;
  lichtgesteldheid : string
}.

(** * Risk scoring (main.py) *)

Module Risk.

(** Speed factor (0-3 points). *)
Definition speed_factor (features : FeatureRecord) : Z :=
  if features.(road).(speed_limit) >? 100 then 3
  else if features.(road).(speed_limit) >? 70 then 2
  else if features.(road).(speed_limit) >? 50 then 1
  else 0.

(** Weather factor (0-2 points). *)
Definition weather_factor (features : FeatureRecord) : Z :=
  if features.(weather).(is_wet) || Qltb features.(weather).(temperature) 3 then 2
  else if Qltb features.(weather).(temperature) 10 then 1
  else 0.

(** Time factor (0-2 points). *)
Definition time_factor (features : FeatureRecord) : Z :=
  if features.(temporal).(is_night) then 2
  else if features.(temporal).(is_rush_hour) then 1
  else 0.

(** Location factor (0-2 points): two independent [if] statements. *)
Definition location_factor (features : FeatureRecord) : Z :=
  (if String.eqb features.(area_type) "Buiten" then 1 else 0)
  + (if String.eqb features.(road).(lit) "no"
        || String.eqb features.(road).(lit) "unknown" then 1 else 0).

(** Parties factor (0-1 point). *)
Definition parties_factor (features : FeatureRecord) : Z :=
  if features.(aantal_partijen) >? 1 then 1 else 0.

(** The value of the local variable [score] when the [return] statement of
    [_calculate_risk_score] is reached. *)
Definition raw_score (features : FeatureRecord) : Z :=
  0 + speed_factor features + weather_factor features + time_factor features
    + location_factor features + parties_factor features.

(** [CrashScopeApp._calculate_risk_score]: [return min(score, 10)]. *)
Definition _calculate_risk_score (features : FeatureRecord) : Z :=
  Z.min (raw_score features) 10.

(** The ['risk_level'] entry of [_process_incident]. *)
Definition risk_level (risk_score : Z) : string :=
  if risk_score >=? 7 then "High"
  else if risk_score >=? 4 then "Medium"
  else "Low".

(** The ['risk_factors'] dictionary of [_process_incident]. *)
Record RiskFactors := {
  speed_risk : string;
  weather_risk : string;
  temporal_risk : string;
  location_risk : string;
  visibility_risk : string
}.

Definition risk_factors (features : FeatureRecord) : RiskFactors := {|
  speed_risk :=
    if features.(road).(speed_limit) >? 80 then "High"
    else if features.(road).(speed_limit) >? 50 then "Medium"
    else "Low";
  weather_risk :=
    if features.(weather).(is_wet) || Qltb features.(weather).(temperature) 3
    then "High"
    else if Qltb features.(weather).(temperature) 10 then "Medium"
    else "Low";
  temporal_risk :=
    if features.(temporal).(is_night) then "High"
    else if features.(temporal).(is_rush_hour) then "Medium"
    else "Low";
  location_risk :=
    if String.eqb features.(area_type) "Buiten" then "Medium" else "Low";
  visibility_risk :=
    if String.eqb features.(lichtgesteldheid) "Duisternis" then "High"
    else "Low"
|}.

(** The ['risk_assessment'] part of the record returned by
    [_process_incident] that depends on the score. *)
Definition risk_assessment (features : FeatureRecord) : Z * string :=
  let risk_score := _calculate_risk_score features in
  (risk_score, risk_level risk_score).

(** Two feature records agree on every key that [_calculate_risk_score]
    reads. *)
Definition same_risk_inputs (f g : FeatureRecord) : Prop :=
  f.(road).(speed_limit) = g.(road).(speed_limit)
  /\ f.(weather).(is_wet) = g.(weather).(is_wet)
  /\ (f.(weather).(temperature) == g.(weather).(temperature))%Q
  /\ f.(temporal).(is_night) = g.(temporal).(is_night)
  /\ f.(temporal).(is_rush_hour) = g.(temporal).(is_rush_hour)
  /\ f.(area_type) = g.(area_type)
  /\ f.(road).(lit) = g.(road).(lit)
  /\ f.(aantal_partijen) = g.(aantal_partijen).

(** The reading of the sub-labels in the design document: each label
    restates the tiers of the numeric score.  For the speed label that is
    High above 100, Medium above 70 up to 100, Low otherwise; the location
    label is Low exactly when neither location condition adds a point. *)
Definition labels_restate_score_tiers (f : FeatureRecord) : Prop :=
  ((risk_factors f).(speed_risk) = "High" <-> f.(road).(speed_limit) > 100)
  /\ ((risk_factors f).(speed_risk) = "Medium"
      <-> 70 < f.(road).(speed_limit) <= 100)
  /\ ((risk_factors f).(speed_risk) = "Low" <-> f.(road).(speed_limit) <= 70)
  /\ ((risk_factors f).(location_risk) = "Low" <-> location_factor f = 0).

(** Sample records used to exercise the scoring functions. *)
Definition sample_weather (wet : bool) (temp : Q) : WeatherFeatures :=
  {| temperature := temp; precipitation := 0; wind_speed := 10;
     weather_code := 1; weather_condition := "Droog"; is_wet := wet |}.

Definition sample_temporal (night rush : bool) : TemporalFeatures :=
  {| hour := 12; day_of_week := 2; month := 1; year := 2025;
     is_weekend := false; is_rush_hour := rush; is_night := night;
     season := "Winter"; time_period := "Afternoon" |}.

Definition sample_road (speed : Z) (lit : string) : RoadFeatures :=
  {| speed_limit := speed; road_type := "motorway"; lanes := 2;
     surface := "asphalt"; lit := lit |}.

(** speed_limit=130, wet, night, rural, unlit, two parties. *)
Definition max_risk_record : FeatureRecord :=
  {| weather := sample_weather true 10;
     temporal := sample_temporal true false;
     road := sample_road 130 "no";
     area_type := "Buiten"; lat := 52; lon := 5;
     aantal_partijen := 2; lichtgesteldheid := "Duisternis" |}.

(** speed_limit=90 on an unlit road in an urban area, dry, by day. *)
Definition urban_unlit_90_record : FeatureRecord :=
  {| weather := sample_weather false 15;
     temporal := sample_temporal false false;
     road := sample_road 90 "no";
     area_type := "Binnen"; lat := 52; lon := 5;
     aantal_partijen := 1; lichtgesteldheid := "Daglicht" |}.

End Risk.

(** * Cache manager (crashscope/utils/cache.py) *)

Module Cache.

Section Manager.
Context {V : Type}.

(** [self._cache] maps a key to [(cache_time, value)]. *)
Record CacheManager := {
  _cache : gmap string (Q * V);
  default_timeout : Z
}.

(** [CacheManager(default_timeout)]. *)
Definition new (default_timeout : Z) : CacheManager :=
  {| _cache := ∅; default_timeout := default_timeout |}.

Definition with_cache (self : CacheManager) (m : gmap string (Q * V))
  : CacheManager :=
  {| _cache := m; default_timeout := self.(default_timeout) |}.

(** [timeout = timeout or self.default_timeout]: Python's [or] yields its
    right operand whenever the left one is falsy, that is [None] or [0]. *)
Definition effective_timeout (self : CacheManager) (timeout : option Z) : Z :=
  match timeout with
  | None => self.(default_timeout)
  | Some t => if t =? 0 then self.(default_timeout) else t
  end.

(** [time.time() - cache_time > timeout]. *)
Definition expired (now cache_time : Q) (timeout : Z) : bool :=
  Qgtb (now - cache_time) (inject_Z timeout).

(** [CacheManager.get]; [now] is the reading of [time.time()].  The result
    is the returned value ([None] for Python's [None]) and the manager
    after the call. *)
Definition get (self : CacheManager) (key : string) (timeout : option Z)
    (now : Q) : option V * CacheManager :=
  match self.(_cache) !! key with
  | None => (None, self)
  | Some (cache_time, value) =>
      let timeout := effective_timeout self timeout in
      if expired now cache_time timeout
      then (None, with_cache self (delete key self.(_cache)))
      else (Some value, self)
  end.

(** [CacheManager.set]. *)
Definition set (self : CacheManager) (key : string) (value : V) (now : Q)
  : CacheManager :=
  with_cache self (<[key := (now, value)]> self.(_cache)).

(** [CacheManager.clear]. *)
Definition clear (self : CacheManager) : CacheManager :=
  with_cache self ∅.

(** [CacheManager.cleanup_expired]: collect the expired keys, delete them,
    return how many there were. *)
Definition cleanup_expired (self : CacheManager) (timeout : option Z)
    (now : Q) : Z * CacheManager :=
  let timeout := effective_timeout self timeout in
  let current_time := now in
  let expired_keys :=
    List.map fst
      (List.filter (fun '(_, (cache_time, _)) => expired current_time cache_time timeout)
                   (map_to_list self.(_cache))) in
  (Z.of_nat (length expired_keys),
   with_cache self (foldl (fun m key => delete key m) self.(_cache) expired_keys)).

(** The timeout the design document prescribes: the caller's value whenever
    one is supplied, the configured default otherwise. *)
Definition documented_timeout (self : CacheManager) (timeout : option Z) : Z :=
  match timeout with
  | Some t => t
  | None => self.(default_timeout)
  end.

End Manager.

Arguments CacheManager : clear implicits.

End Cache.

(** * Incidents (crashscope/api/tomtom.py, main.py) *)

Module Incidents.

Section Incident.
(** [num] stands for the numbers of a coordinate list, compared with
    Python's [==]. *)
Context {num : Type} `{EqDecision num}.

(** The value under ['coordinates']: a position (list of numbers, as in a
    [Point]) or a list of positions (as in a [LineString]).  The empty list
    is [Position []]; [Positions []] is treated alike everywhere. *)
Inductive Coordinates :=
  | Position (xs : list num)
  | Positions (pts : list (list num)).

(** What indexing into a coordinate list yields. *)
Inductive CoordValue :=
  | VNum (x : num)
  | VList (xs : list num).

Record Geometry := {
  geometry_type : option string;        (* 'type' *)
  coordinates : option Coordinates      (* 'coordinates' *)
}.

Record Properties := {
  iconCategory : option Z;
  incident_id : option string;          (* 'id' *)
  startTime : option string
}.

(** An incident dictionary of the TomTom API; every key may be absent. *)
Record Incident := {
  incident_type : option string;        (* 'type' *)
  geometry : option Geometry;
  properties : option Properties;
  source_region : option Z
}.

(** Truth value of the dictionary: false exactly when it has no key. *)
Definition truthy (incident : Incident) : bool :=
  match incident.(incident_type), incident.(geometry),
        incident.(properties), incident.(source_region) with
  | None, None, None, None => false
  | _, _, _, _ => true
  end.

(** [coords[i]]; [None] stands for [IndexError]. *)
Definition item (coords : Coordinates) (i : nat) : option CoordValue :=
  match coords with
  | Position xs => VNum <$> xs !! i
  | Positions pts => VList <$> pts !! i
  end.

(** [v[i]] on a value obtained by indexing; [None] stands for [IndexError]
    (list too short) or [TypeError] (a number is not subscriptable). *)
Definition subitem (v : CoordValue) (i : nat) : option CoordValue :=
  match v with
  | VNum _ => None
  | VList xs => VNum <$> xs !! i
  end.

(** [TomTomClient.extract_coordinates].  Every [KeyError], [IndexError] and
    [TypeError] is caught and turned into [None]. *)
Definition extract_coordinates (incident : Incident)
  : option (CoordValue * CoordValue) :=
  match incident.(geometry) with
  | None => None
  | Some geometry =>
    match geometry.(coordinates) with
    | None => None
    | Some coords =>
      match geometry.(geometry_type) with
      | None => None
      | Some ty =>
        if String.eqb ty "Point" then
          match item coords 0, item coords 1 with
          | Some longitude, Some latitude => Some (latitude, longitude)
          | _, _ => None
          end
        else if String.eqb ty "LineString" then
          match item coords 0 with
          | Some first =>
              match subitem first 0, subitem first 1 with
              | Some longitude, Some latitude => Some (latitude, longitude)
              | _, _ => None
              end
          | None => None
          end
        else None
      end
    end
  end.

(** The de-duplication key [(coords_key, icon_category)]: a tuple of tuples
    of numbers and the category code. *)
Definition IncidentKey : Type := list (list num) * option Z.

(** [geometry.get('coordinates', [])] after [incident.get('geometry', {})]. *)
Definition coords_of (incident : Incident) : Coordinates :=
  match incident.(geometry) with
  | None => Position []
  | Some geometry => default (Position []) geometry.(coordinates)
  end.

(** [incident.get('properties', {}).get('iconCategory')]. *)
Definition icon_category_of (incident : Incident) : option Z :=
  match incident.(properties) with
  | None => None
  | Some props => props.(iconCategory)
  end.

(** [CrashScopeApp._generate_incident_key].  On incidents of this shape
    [.get] never raises and [tuple] is only applied to lists, so the
    [except] branch of the source is not reached. *)
Definition _generate_incident_key (incident : Incident) : IncidentKey :=
  let coords := coords_of incident in
  let coords_key :=
    match coords with
    | Position (x :: xs) => [x :: xs]
    | Position [] => []
    | Positions pts => pts
    end in
  let icon_category := icon_category_of incident in
  (coords_key, icon_category).

(** [key in unique_incidents] on an insertion-ordered dictionary. *)
Definition has_key (key : IncidentKey) (d : list (IncidentKey * Incident))
  : bool :=
  bool_decide (key ∈ d.*1).

(** [unique_incidents[key]]. *)
Fixpoint dict_get (key : IncidentKey) (d : list (IncidentKey * Incident))
  : option Incident :=
  match d with
  | [] => None
  | (k, v) :: d' => if decide (k = key) then Some v else dict_get key d'
  end.

(** The body of the [for] loop of [_deduplicate_incidents], started from the
    dictionary [unique_incidents]. *)
Fixpoint dedup_loop (unique_incidents : list (IncidentKey * Incident))
    (incidents : list Incident) : list (IncidentKey * Incident) :=
  match incidents with
  | [] => unique_incidents
  | incident :: rest =>
      let key := _generate_incident_key incident in
      if has_key key unique_incidents
      then dedup_loop unique_incidents rest
      else dedup_loop (unique_incidents ++ [(key, incident)]) rest
  end.

(** [CrashScopeApp._deduplicate_incidents]. *)
Definition _deduplicate_incidents (incidents : list Incident)
  : list (IncidentKey * Incident) :=
  dedup_loop [] incidents.

(** The first incident of a list that has the given key. *)
Definition first_with_key (key : IncidentKey) (incidents : list Incident)
  : option Incident :=
  List.find (fun i => bool_decide (_generate_incident_key i = key)) incidents.

End Incident.

Arguments Coordinates : clear implicits.
Arguments CoordValue : clear implicits.
Arguments Geometry : clear implicits.
Arguments Incident : clear implicits.
Arguments IncidentKey : clear implicits.

End Incidents.

(** * Python built-ins used by the extractors *)

Module Py.

(** [s.replace(old, new)] for a non-empty [old]: occurrences are replaced
    from left to right without overlap.  [skip] counts the characters of a
    matched occurrence that remain to be dropped. *)
Fixpoint replace_from (old new : string) (skip : nat) (s : string) : string :=
  match s with
  | EmptyString => EmptyString
  | String c s' =>
      match skip with
      | S k => replace_from old new k s'
      | O =>
          if String.prefix old s
          then String.append new (replace_from old new (String.length old - 1) s')
          else String c (replace_from old new 0 s')
      end
  end.

Definition replace (s old new : string) : string := replace_from old new 0 s.

(** White space that [int] ignores around a numeral: tab, line feed,
    vertical tab, form feed, carriage return and space. *)
Definition is_space (c : ascii) : bool :=
  let n := Z.of_nat (nat_of_ascii c) in
  ((9 <=? n) && (n <=? 13)) || (n =? 32).

Fixpoint lstrip (s : string) : string :=
  match s with
  | EmptyString => EmptyString
  | String c s' => if is_space c then lstrip s' else s
  end.

Fixpoint rstrip (s : string) : string :=
  match s with
  | EmptyString => EmptyString
  | String c s' =>
      match rstrip s' with
      | EmptyString => if is_space c then EmptyString else String c EmptyString
      | r => String c r
      end
  end.

Definition digit_of (c : ascii) : option Z :=
  let n := Z.of_nat (nat_of_ascii c) in
  if (48 <=? n) && (n <=? 57) then Some (n - 48) else None.

(** Decimal digits, where a single underscore may separate two digits. *)
Fixpoint digits_value (acc : Z) (after_digit : bool) (s : string) : option Z :=
  match s with
  | EmptyString => if after_digit then Some acc else None
  | String c s' =>
      match digit_of c with
      | Some d => digits_value (10 * acc + d) true s'
      | None =>
          if Ascii.eqb c "_"%char && after_digit
          then digits_value acc false s'
          else None
      end
  end.

(** [int(s)] on an ASCII string; [None] stands for [ValueError].  Numerals
    written with non-ASCII digits or spaces, and the interpreter's limit on
    the number of digits, are outside this model. *)
Definition int (s : string) : option Z :=
  match rstrip (lstrip s) with
  | String "+"%char r => digits_value 0 false r
  | String "-"%char r => Z.opp <$> digits_value 0 false r
  | r => digits_value 0 false r
  end.

End Py.

(** * Replies of the remote services *)

(** What a [requests.get] / [requests.post] call followed by
    [response.json()] can produce.  [json = None] means that decoding the
    body raises [ValueError]. *)
Inductive HttpReply (B : Type) :=
  | RequestException
  | Response (status_code : Z) (json : option B).

Arguments RequestException {B}.
Arguments Response {B} status_code json.

(** The ['current'] block of an Open-Meteo answer; every key may be absent. *)
Record WeatherCurrent := {
  temperature_2m : option Q;
  current_precipitation : option Q;       (* 'precipitation' *)
  wind_speed_10m : option Q;
  weathercode : option Z
}.

Record WeatherData := {
  current : option WeatherCurrent
}.

(** An element of an Overpass answer and the answer itself. *)
Record OsmElement := {
  tags : option (gmap string string)
}.

Record OsmData := {
  elements : option (list OsmElement)
}.

(** * Weather extractor (crashscope/features/weather.py) *)

Module Weather.

Definition _get_default_weather : WeatherFeatures := {|
  temperature := 10;
  precipitation := 0;
  wind_speed := 10;
  weather_code := 1;
  weather_condition := "Droog";
  is_wet := false
|}.

Definition _map_weather_condition (weather_code : Z) : string :=
  if bool_decide (weather_code ∈ [61; 63; 65; 80; 81; 82]) then "Regen"
  else if bool_decide (weather_code ∈ [45; 48]) then "Mist"
  else if bool_decide (weather_code ∈ [71; 73; 75; 77; 85; 86]) then "Sneeuw"
  else "Droog".

(** The float literal [0.1], as the exact value of the double that it
    denotes. *)
Definition f0_1 : Q := 3602879701896397 # 36028797018963968.

Definition _process_weather_data (weather_data : WeatherData) : WeatherFeatures :=
  match weather_data.(current) with
  | None => _get_default_weather
  | Some current =>
      let temperature := default 10%Q current.(temperature_2m) in
      let precipitation := default 0%Q current.(current_precipitation) in
      let wind_speed := default 10%Q current.(wind_speed_10m) in
      let weather_code := default 1 current.(weathercode) in
      {| temperature := temperature;
         precipitation := precipitation;
         wind_speed := wind_speed;
         weather_code := weather_code;
         weather_condition := _map_weather_condition weather_code;
         is_wet := Qgtb precipitation f0_1 |}
  end.

Record WeatherFeatureExtractor := {
  cache : Cache.CacheManager WeatherFeatures
}.

Section Extract.
(** [f"{x:.4f}"]. *)
Context (format_4f : Q -> string).

Definition cache_key (lat lon : Q) : string :=
  String.append "weather_"
    (String.append (format_4f lat) (String.append "_" (format_4f lon))).

(** [WeatherFeatureExtractor.extract_features].  [now_get] and [now_set]
    are the clock readings inside [cache.get] and [cache.set]; [reply] is
    what the weather service answers if it is asked.  The result is the
    returned dictionary, the extractor after the call, and whether a request
    was sent. *)
Definition extract_features (self : WeatherFeatureExtractor) (lat lon : Q)
    (now_get now_set : Q) (reply : HttpReply WeatherData)
  : WeatherFeatures * WeatherFeatureExtractor * bool :=
  let cache_key := cache_key lat lon in
  let '(cached_result, cache1) := Cache.get self.(cache) cache_key None now_get in
  match cached_result with
  | Some cached => (cached, {| cache := cache1 |}, false)
  | None =>
      match reply with
      | Response status_code body =>
          if status_code =? 200 then
            match body with
            | Some weather_data =>
                let features := _process_weather_data weather_data in
                (features,
                 {| cache := Cache.set cache1 cache_key features now_set |},
                 true)
            | None => (_get_default_weather, {| cache := cache1 |}, true)
            end
          else (_get_default_weather, {| cache := cache1 |}, true)
      | RequestException => (_get_default_weather, {| cache := cache1 |}, true)
      end
  end.

End Extract.

(** Lookups that end in the [except] clause or skip the [if]: transport
    error, non-success status, undecodable body. *)
Definition upstream_failure (reply : HttpReply WeatherData) : Prop :=
  match reply with
  | RequestException => True
  | Response status_code body => status_code <> 200 \/ body = None
  end.

(** A success status with a decoded body that lacks the ['current'] block. *)
Definition lacks_current (reply : HttpReply WeatherData) : Prop :=
  match reply with
  | Response status_code (Some weather_data) =>
      status_code = 200 /\ weather_data.(current) = None
  | _ => False
  end.

(** The lookups that the design document counts as failed. *)
Definition failed_lookup (reply : HttpReply WeatherData) : Prop :=
  upstream_failure reply \/ lacks_current reply.

End Weather.

(** * Road extractor (crashscope/features/road.py) *)

Module Road.

Definition _get_default_road_features : RoadFeatures := {|
  speed_limit := 50;
  road_type := "residential";
  lanes := 2;
  surface := "asphalt";
  lit := "unknown"
|}.

(** Assignments [features[k] = v] for the five keys. *)
Definition set_speed_limit (v : Z) (f : RoadFeatures) : RoadFeatures :=
  {| speed_limit := v; road_type := f.(road_type); lanes := f.(lanes);
     surface := f.(surface); lit := f.(lit) |}.
Definition set_road_type (v : string) (f : RoadFeatures) : RoadFeatures :=
  {| speed_limit := f.(speed_limit); road_type := v; lanes := f.(lanes);
     surface := f.(surface); lit := f.(lit) |}.
Definition set_lanes (v : Z) (f : RoadFeatures) : RoadFeatures :=
  {| speed_limit := f.(speed_limit); road_type := f.(road_type); lanes := v;
     surface := f.(surface); lit := f.(lit) |}.
Definition set_surface (v : string) (f : RoadFeatures) : RoadFeatures :=
  {| speed_limit := f.(speed_limit); road_type := f.(road_type);
     lanes := f.(lanes); surface := v; lit := f.(lit) |}.
Definition set_lit (v : string) (f : RoadFeatures) : RoadFeatures :=
  {| speed_limit := f.(speed_limit); road_type := f.(road_type);
     lanes := f.(lanes); surface := f.(surface); lit := v |}.

(** The [speed_defaults] dictionary. *)
Definition speed_defaults : gmap string Z :=
  list_to_map [("motorway", 130); ("trunk", 100); ("primary", 80);
               ("secondary", 80); ("tertiary", 60); ("residential", 30);
               ("living_street", 15)].

(** The ['maxspeed'] step: [int] of the tag with the unit suffixes removed;
    a [ValueError] leaves the record as it is. *)
Definition parse_maxspeed (value : string) : option Z :=
  let speed_str := Py.replace (Py.replace value "mph" "") "kmh" "" in
  Py.int speed_str.

Definition apply_maxspeed (tags : gmap string string) (features : RoadFeatures)
  : RoadFeatures :=
  match tags !! "maxspeed" with
  | None => features
  | Some value =>
      match parse_maxspeed value with
      | Some n => set_speed_limit n features
      | None => features
      end
  end.

(** The ['highway'] step: road type, and the table speed when the recorded
    speed limit equals 50. *)
Definition apply_highway (tags : gmap string string) (features : RoadFeatures)
  : RoadFeatures :=
  match tags !! "highway" with
  | None => features
  | Some highway_type =>
      let features := set_road_type highway_type features in
      if features.(speed_limit) =? 50
      then set_speed_limit (default 50 (speed_defaults !! highway_type)) features
      else features
  end.

Definition apply_lanes (tags : gmap string string) (features : RoadFeatures)
  : RoadFeatures :=
  match tags !! "lanes" with
  | None => features
  | Some value =>
      match Py.int value with
      | Some n => set_lanes n features
      | None => features
      end
  end.

Definition apply_surface (tags : gmap string string) (features : RoadFeatures)
  : RoadFeatures :=
  match tags !! "surface" with
  | None => features
  | Some value => set_surface value features
  end.

Definition apply_lit (tags : gmap string string) (features : RoadFeatures)
  : RoadFeatures :=
  match tags !! "lit" with
  | None => features
  | Some value =>
      set_lit (if String.eqb value "yes" then "yes" else "no") features
  end.

(** [RoadFeatureExtractor._process_osm_data]. *)
Definition _process_osm_data (osm_data : OsmData) : RoadFeatures :=
  let features := _get_default_road_features in
  match osm_data.(elements) with
  | None | Some [] => features
  | Some (road :: _) =>
      let tags := default ∅ road.(tags) in
      let features := apply_maxspeed tags features in
      let features := apply_highway tags features in
      let features := apply_lanes tags features in
      let features := apply_surface tags features in
      let features := apply_lit tags features in
      features
  end.

Record RoadFeatureExtractor := {
  cache : Cache.CacheManager RoadFeatures
}.

Section Extract.
(** [f"{x:.3f}"]. *)
Context (format_3f : Q -> string).

Definition cache_key (lat lon : Q) : string :=
  String.append "road_"
    (String.append (format_3f lat) (String.append "_" (format_3f lon))).

(** [RoadFeatureExtractor.extract_features], with the same conventions as
    for the weather extractor. *)
Definition extract_features (self : RoadFeatureExtractor) (lat lon : Q)
    (now_get now_set : Q) (reply : HttpReply OsmData)
  : RoadFeatures * RoadFeatureExtractor * bool :=
  let cache_key := cache_key lat lon in
  let '(cached_result, cache1) := Cache.get self.(cache) cache_key None now_get in
  match cached_result with
  | Some cached => (cached, {| cache := cache1 |}, false)
  | None =>
      match reply with
      | Response status_code body =>
          if status_code =? 200 then
            match body with
            | Some osm_data =>
                let features := _process_osm_data osm_data in
                (features,
                 {| cache := Cache.set cache1 cache_key features now_set |},
                 true)
            | None => (_get_default_road_features, {| cache := cache1 |}, true)
            end
          else (_get_default_road_features, {| cache := cache1 |}, true)
      | RequestException =>
          (_get_default_road_features, {| cache := cache1 |}, true)
      end
  end.

End Extract.

(** [RoadFeatureExtractor.classify_area]: ['Binnen'] when the place query
    succeeds with a non-empty element list, ['Buiten'] otherwise. *)
Definition classify_area (reply : HttpReply OsmData) : string :=
  match reply with
  | Response status_code (Some place_data) =>
      if status_code =? 200 then
        match place_data.(elements) with
        | Some (_ :: _) => "Binnen"
        | _ => "Buiten"
        end
      else "Buiten"
  | _ => "Buiten"
  end.

End Road.

(** * Temporal extractor (crashscope/features/temporal.py) *)

Module Temporal.

(** The parts of a [datetime] that the extractor reads. *)
Record datetime := {
  dt_year : Z;
  dt_month : Z;
  dt_hour : Z;
  dt_weekday : Z         (* [dt.weekday()], Monday = 0 *)
}.

Definition _get_season (month : Z) : string :=
  if bool_decide (month ∈ [12; 1; 2]) then "Winter"
  else if bool_decide (month ∈ [3; 4; 5]) then "Spring"
  else if bool_decide (month ∈ [6; 7; 8]) then "Summer"
  else "Autumn".

Definition _get_time_period (hour : Z) : string :=
  if (6 <=? hour) && (hour <? 12) then "Morning"
  else if (12 <=? hour) && (hour <? 18) then "Afternoon"
  else if (18 <=? hour) && (hour <? 22) then "Evening"
  else "Night".

Section Extract.
(** [datetime.fromisoformat]; [None] stands for [ValueError]. *)
Context (fromisoformat : string -> option datetime).

(** [TemporalFeatureExtractor.extract_features]; [now] is the reading of
    [datetime.now()]. *)
Definition extract_features (timestamp : option string) (now : datetime)
  : TemporalFeatures :=
  let dt :=
    match timestamp with
    | None => now
    | Some timestamp =>
        match fromisoformat (Py.replace timestamp "Z" "+00:00") with
        | Some dt => dt
        | None => now
        end
    end in
  {| hour := dt.(dt_hour);
     day_of_week := dt.(dt_weekday);
     month := dt.(dt_month);
     year := dt.(dt_year);
     is_weekend := dt.(dt_weekday) >=? 5;
     is_rush_hour := bool_decide (dt.(dt_hour) ∈ [7; 8; 9; 16; 17; 18; 19]);
     is_night := (dt.(dt_hour) <? 6) || (dt.(dt_hour) >? 22);
     season := _get_season dt.(dt_month);
     time_period := _get_time_period dt.(dt_hour) |}.

End Extract.

End Temporal.

(** * Feature engine (crashscope/features/engine.py) *)

Module Engine.

Import Incidents.

(** The engine owns the two cache-backed extractors; the temporal extractor
    has no state. *)
Record CrashScopeFeatureEngine := {
  weather_extractor : Weather.WeatherFeatureExtractor;
  road_extractor : Road.RoadFeatureExtractor
}.

(** What the outside world supplies during one [engineer_features] call:
    clock readings for the cache operations, the current date and time, and
    the answers of the three remote queries. *)
Record Env := {
  weather_now_get : Q;
  weather_now_set : Q;
  weather_reply : HttpReply WeatherData;
  datetime_now : Temporal.datetime;
  road_now_get : Q;
  road_now_set : Q;
  road_reply : HttpReply OsmData;
  place_reply : HttpReply OsmData
}.

(** [CrashScopeFeatureEngine._determine_lighting]. *)
Definition _determine_lighting (hour : Z) (road_lit : string) : string :=
  if (6 <=? hour) && (hour <=? 20) then "Daglicht"
  else if String.eqb road_lit "yes" then "Kunstlicht"
  else "Duisternis".

Section Engineer.
Context {num : Type}.
Context (format_3f format_4f : Q -> string).
Context (fromisoformat : string -> option Temporal.datetime).

(** [CrashScopeFeatureEngine._estimate_parties].  Both [.get] calls succeed
    on an incident dictionary (a missing key yields the default), so the
    [except (KeyError, TypeError)] branch, which returns 2, is not taken. *)
Definition _estimate_parties (incident_data : Incident num) : Z :=
  let icon_category :=
    match incident_data.(properties) with
    | None => None
    | Some props => props.(iconCategory)
    end in
  if bool_decide (icon_category = Some 1) then 2 else 1.

(** [CrashScopeFeatureEngine.engineer_features]: the feature record and the
    engine after the call. *)
Definition engineer_features (self : CrashScopeFeatureEngine)
    (latitude longitude : Q) (timestamp : option string)
    (incident_data : option (Incident num)) (env : Env)
  : FeatureRecord * CrashScopeFeatureEngine :=
  let '(weather_features, weather_extractor', _) :=
    Weather.extract_features format_4f self.(weather_extractor)
      latitude longitude env.(weather_now_get) env.(weather_now_set)
      env.(weather_reply) in
  let temporal_features :=
    Temporal.extract_features fromisoformat timestamp env.(datetime_now) in
  let '(road_features, road_extractor', _) :=
    Road.extract_features format_3f self.(road_extractor)
      latitude longitude env.(road_now_get) env.(road_now_set)
      env.(road_reply) in
  let area_type := Road.classify_area env.(place_reply) in
  let aantal_partijen :=
    match incident_data with
    | Some incident_data =>
        if truthy incident_data then _estimate_parties incident_data else 2
    | None => 2
    end in
  let lichtgesteldheid :=
    _determine_lighting temporal_features.(hour) road_features.(lit) in
  ({| weather := weather_features;
      temporal := temporal_features;
      road := road_features;
      area_type := area_type;
      lat := latitude;
      lon := longitude;
      aantal_partijen := aantal_partijen;
      lichtgesteldheid := lichtgesteldheid |},
   {| weather_extractor := weather_extractor';
      road_extractor := road_extractor' |}).

End Engineer.

End Engine.

(** * TomTom client (crashscope/api/tomtom.py): fetching *)

Module TomTom.

Import Incidents.

Section Client.
Context {num : Type}.

(** The decoded body of an incident-details answer. *)
Record IncidentsData := {
  incidents : option (list (Incident num))
}.

(** [TomTomClient.fetch_incidents]; [None] stands for the [ValueError]
    raised for an empty [bbox]. *)
Definition fetch_incidents (bbox : string) (reply : HttpReply IncidentsData)
  : option (list (Incident num)) :=
  if String.eqb bbox "" then None
  else
    Some
      match reply with
      | RequestException => []
      | Response status_code body =>
          if negb (status_code =? 200) then []
          else
            match body with
            | None => []
            | Some data => default [] data.(incidents)
            end
      end.

End Client.

Arguments IncidentsData : clear implicits.

End TomTom.

(** * Application (main.py): collecting, processing, summarising *)

Module App.

Import Incidents.

(** [x <= y] on numbers. *)
Definition Qleb (x y : Q) : bool := Qle_bool x y.

(** The float literals of [_identify_region], each as the exact value of
    the double that the literal denotes. *)
Definition f52_3 : Q := 3680285320491827 # 70368744177664.
Definition f52_4 : Q := 7374644389819187 # 140737488355328.
Definition f4_8 : Q := 5404319552844595 # 1125899906842624.
Definition f5_0 : Q := 5.
Definition f52_0 : Q := 52.
Definition f52_1 : Q := 7332423143312589 # 140737488355328.
Definition f4_2 : Q := 4728779608739021 # 1125899906842624.
Definition f4_4 : Q := 2476979795053773 # 562949953421312.
Definition f51_9 : Q := 7304275645641523 # 140737488355328.
Definition f4_6 : Q := 2589569785738035 # 562949953421312.
Definition f52_2 : Q := 3673248446074061 # 70368744177664.
Definition f5_1 : Q := 2871044762448691 # 562949953421312.
Definition f5_2 : Q := 5854679515581645 # 1125899906842624.
Definition f53_0 : Q := 53.
Definition f51_5 : Q := 103 # 2.

(** [CrashScopeApp._identify_region]; the arguments are the exact values of
    the two floats. *)
Definition _identify_region (lat lon : Q) : string :=
  if Qleb f52_3 lat && Qleb lat f52_4 && (Qleb f4_8 lon && Qleb lon f5_0)
  then "Amsterdam"
  else if Qleb f52_0 lat && Qleb lat f52_1 && (Qleb f4_2 lon && Qleb lon f4_4)
  then "Den Haag"
  else if Qleb f51_9 lat && Qleb lat f52_0 && (Qleb f4_4 lon && Qleb lon f4_6)
  then "Rotterdam"
  else if Qleb f52_1 lat && Qleb lat f52_2 && (Qleb f5_1 lon && Qleb lon f5_2)
  then "Utrecht"
  else if Qgtb lat f53_0 then "Noord-Nederland"
  else if Qltb lat f51_5 then "Zuid-Nederland"
  else "Midden-Nederland".

(** The coverage boxes [(minLon, minLat, maxLon, maxLat)]; their numbers
    are only printed into the request. *)
Definition coverage_boxes : list (Q * Q * Q * Q) :=
  [ (32 # 10, 507 # 10, 4, 513 # 10); (4, 507 # 10, 48 # 10, 513 # 10);
    (48 # 10, 507 # 10, 56 # 10, 513 # 10); (56 # 10, 507 # 10, 61 # 10, 513 # 10);
    (32 # 10, 513 # 10, 4, 519 # 10); (4, 513 # 10, 48 # 10, 519 # 10);
    (48 # 10, 513 # 10, 56 # 10, 519 # 10); (56 # 10, 513 # 10, 61 # 10, 519 # 10);
    (32 # 10, 519 # 10, 4, 525 # 10); (4, 519 # 10, 48 # 10, 525 # 10);
    (48 # 10, 519 # 10, 56 # 10, 525 # 10); (56 # 10, 519 # 10, 61 # 10, 525 # 10);
    (32 # 10, 525 # 10, 4, 531 # 10); (4, 525 # 10, 48 # 10, 531 # 10);
    (48 # 10, 525 # 10, 56 # 10, 531 # 10); (56 # 10, 525 # 10, 61 # 10, 531 # 10)
  ]%Q.

Section Main.
Context {num : Type}.
(** [f"{x}"] and [f"{x:.4f}"] on floats, the value of a coordinate number,
    and the library functions that the engine needs. *)
Context (str_float format_4f format_3f : Q -> string).
Context (num_value : num -> Q).
Context (fromisoformat : string -> option Temporal.datetime).

(** [f"{minLon},{minLat},{maxLon},{maxLat}"]. *)
Definition bbox_str (box : Q * Q * Q * Q) : string :=
  let '(minLon, minLat, maxLon, maxLat) := box in
  String.append (str_float minLon)
    (String.append ","
       (String.append (str_float minLat)
          (String.append ","
             (String.append (str_float maxLon)
                (String.append "," (str_float maxLat)))))).

(** [incident['source_region'] = i]. *)
Definition set_source_region (i : Z) (incident : Incident num) : Incident num :=
  {| incident_type := incident.(incident_type);
     geometry := incident.(geometry);
     properties := incident.(properties);
     source_region := Some i |}.

(** The loop of [_fetch_all_incidents] from box number [i] on;
    [reply_for i] is the answer to the request for box [i].  [None] means
    that [fetch_incidents] raised. *)
Fixpoint fetch_loop (reply_for : nat -> HttpReply (TomTom.IncidentsData num))
    (i : nat) (boxes : list (Q * Q * Q * Q))
    (all_incidents : list (Incident num)) : option (list (Incident num)) :=
  match boxes with
  | [] => Some all_incidents
  | box :: rest =>
      match TomTom.fetch_incidents (bbox_str box) (reply_for i) with
      | None => None
      | Some [] => fetch_loop reply_for (S i) rest all_incidents
      | Some incidents =>
          fetch_loop reply_for (S i) rest
            (all_incidents
             ++ List.map (set_source_region (Z.of_nat i)) incidents)
      end
  end.

(** [CrashScopeApp._fetch_all_incidents] over the given boxes, numbered
    from 1. *)
Definition fetch_all (reply_for : nat -> HttpReply (TomTom.IncidentsData num))
    (boxes : list (Q * Q * Q * Q)) : option (list (Incident num)) :=
  fetch_loop reply_for 1 boxes [].

Definition _fetch_all_incidents
    (reply_for : nat -> HttpReply (TomTom.IncidentsData num))
  : option (list (Incident num)) :=
  fetch_all reply_for coverage_boxes.

(** The record returned by [_process_incident].  The sub-dictionaries
    ['road_infrastructure'], ['weather'] and ['temporal'] hold the values of
    the road, weather and temporal features one by one under other key
    names; they are kept as those feature records. *)
Record IncidentMetadata := {
  meta_incident_id : string;                 (* 'incident_id' *)
  meta_source_region : Z + string;           (* 'source_region' *)
  coordinates_display : string;
  meta_timestamp : option string;            (* 'timestamp' *)
  meta_geometry_type : option string;        (* 'geometry_type' *)
  geometry_points : Z
}.

Record LocationAnalysis := {
  la_latitude : Q;                           (* 'coordinates'.'latitude' *)
  la_longitude : Q;                          (* 'coordinates'.'longitude' *)
  area_classification : string;
  region : string;
  road_infrastructure : RoadFeatures
}.

Record EnvironmentalConditions := {
  ec_weather : WeatherFeatures;              (* 'weather' *)
  ec_temporal : TemporalFeatures             (* 'temporal' *)
}.

Record RiskAssessment := {
  overall_risk_score : Z;
  ra_risk_level : string;                    (* 'risk_level' *)
  estimated_parties_involved : Z;
  lighting_conditions : string;
  ra_risk_factors : Risk.RiskFactors         (* 'risk_factors' *)
}.

Record MlReadyFeatures := {
  ml_lat : Q;
  ml_lon : Q;
  ml_aantal_partijen : Z;
  jaar : Z;
  snelheid : Z;
  gebied : string;
  ml_lichtgesteldheid : string;
  wegsoort : string;
  ml_weather_condition : string;
  ml_temperature : Q;
  ml_is_weekend : bool;
  ml_is_rush_hour : bool
}.

Record ProcessedIncident := {
  incident_metadata : IncidentMetadata;
  location_analysis : LocationAnalysis;
  environmental_conditions : EnvironmentalConditions;
  risk_assessment : RiskAssessment;
  ml_ready_features : MlReadyFeatures;
  complete_feature_set : FeatureRecord;
  raw_incident_data : Incident num
}.

(** [len(coords)] of a coordinate list. *)
Definition coords_len (coords : Coordinates num) : Z :=
  match coords with
  | Position xs => Z.of_nat (length xs)
  | Positions pts => Z.of_nat (length pts)
  end.

(** [CrashScopeApp._process_incident]: the record, or [None] when the
    incident is skipped, and the feature engine after the call.  When
    [extract_coordinates] yields lists instead of numbers, formatting the
    cache key raises [TypeError] before the engine is touched, and the
    [except Exception] clause returns [None]. *)
Definition _process_incident (engine : Engine.CrashScopeFeatureEngine)
    (incident : Incident num) (env : Engine.Env)
  : option ProcessedIncident * Engine.CrashScopeFeatureEngine :=
  match extract_coordinates incident with
  | Some (VNum latitude, VNum longitude) =>
      let latitude := num_value latitude in
      let longitude := num_value longitude in
      let props := incident.(properties) in
      let geom := incident.(geometry) in
      let timestamp :=
        match props with Some p => p.(startTime) | None => None end in
      let '(features, engine') :=
        Engine.engineer_features format_3f format_4f fromisoformat engine
          latitude longitude timestamp (Some incident) env in
      let risk_score := Risk._calculate_risk_score features in
      let geom_type :=
        match geom with Some g => g.(geometry_type) | None => None end in
      (Some
         {| incident_metadata :=
              {| meta_incident_id :=
                   default
                     (String.append "incident_"
                        (String.append (format_4f latitude)
                           (String.append "_" (format_4f longitude))))
                     match props with
                     | Some p => p.(incident_id)
                     | None => None
                     end;
                 meta_source_region :=
                   match incident.(source_region) with
                   | Some i => inl i
                   | None => inr "unknown"
                   end;
                 coordinates_display :=
                   String.append (format_4f latitude)
                     (String.append "N, "
                        (String.append (format_4f longitude) "E"));
                 meta_timestamp := timestamp;
                 meta_geometry_type := geom_type;
                 geometry_points :=
                   if bool_decide (geom_type = Some "LineString")
                   then coords_len (coords_of incident)
                   else 1 |};
            location_analysis :=
              {| la_latitude := latitude;
                 la_longitude := longitude;
                 area_classification := features.(area_type);
                 region := _identify_region latitude longitude;
                 road_infrastructure := features.(road) |};
            environmental_conditions :=
              {| ec_weather := features.(weather);
                 ec_temporal := features.(temporal) |};
            risk_assessment :=
              {| overall_risk_score := risk_score;
                 ra_risk_level := Risk.risk_level risk_score;
                 estimated_parties_involved := features.(aantal_partijen);
                 lighting_conditions := features.(lichtgesteldheid);
                 ra_risk_factors := Risk.risk_factors features |};
            ml_ready_features :=
              {| ml_lat := features.(lat);
                 ml_lon := features.(lon);
                 ml_aantal_partijen := features.(aantal_partijen);
                 jaar := features.(temporal).(year);
                 snelheid := features.(road).(speed_limit);
                 gebied := features.(area_type);
                 ml_lichtgesteldheid := features.(lichtgesteldheid);
                 wegsoort := features.(road).(road_type);
                 ml_weather_condition := features.(weather).(weather_condition);
                 ml_temperature := features.(weather).(temperature);
                 ml_is_weekend := features.(temporal).(is_weekend);
                 ml_is_rush_hour := features.(temporal).(is_rush_hour) |};
            complete_feature_set := features;
            raw_incident_data := incident |},
       engine')
  | _ => (None, engine)
  end.

(** The two counting dictionaries of [_print_final_summary]:
    [risk_levels[risk_level] += 1] raises [KeyError] ([None]) for a level
    that is not a key; [regions[region] = regions.get(region, 0) + 1]. *)
Fixpoint count_loop (risk_levels regions : gmap string Z)
    (results : list ProcessedIncident) : option (gmap string Z * gmap string Z) :=
  match results with
  | [] => Some (risk_levels, regions)
  | result :: rest =>
      let risk_level := result.(risk_assessment).(ra_risk_level) in
      match risk_levels !! risk_level with
      | None => None
      | Some n =>
          let risk_levels := <[risk_level := n + 1]> risk_levels in
          let region := result.(location_analysis).(region) in
          let regions :=
            <[region := default 0 (regions !! region) + 1]> regions in
          count_loop risk_levels regions rest
      end
  end.

Definition summary_counts (results : list ProcessedIncident)
  : option (gmap string Z * gmap string Z) :=
  count_loop (<["High" := 0]> (<["Medium" := 0]> (<["Low" := 0]> ∅))) ∅ results.

(** The sum of the counts of a counting dictionary. *)
Definition total_count (counts : gmap string Z) : Z :=
  map_fold (fun _ n acc => n + acc) 0 counts.

End Main.

End App.

(** * Notions used to state properties *)

Module Notions.

(** [old] occurs somewhere in [s] ([old in s]). *)
Fixpoint occurs (old s : string) : bool :=
  String.prefix old s
  || match s with
     | EmptyString => false
     | String _ s' => occurs old s'
     end.

(** Two feature records agree on every key that the risk score reads,
    except possibly on the speed limit. *)
Definition same_but_speed (f g : FeatureRecord) : Prop :=
  f.(weather).(is_wet) = g.(weather).(is_wet)
  /\ (f.(weather).(temperature) == g.(weather).(temperature))%Q
  /\ f.(temporal).(is_night) = g.(temporal).(is_night)
  /\ f.(temporal).(is_rush_hour) = g.(temporal).(is_rush_hour)
  /\ f.(area_type) = g.(area_type)
  /\ f.(road).(lit) = g.(road).(lit)
  /\ f.(aantal_partijen) = g.(aantal_partijen).

(** How many of the five factors contribute at least one point. *)
Definition contributing_factors (f : FeatureRecord) : Z :=
  (if Risk.speed_factor f =? 0 then 0 else 1)
  + (if Risk.weather_factor f =? 0 then 0 else 1)
  + (if Risk.time_factor f =? 0 then 0 else 1)
  + (if Risk.location_factor f =? 0 then 0 else 1)
  + (if Risk.parties_factor f =? 0 then 0 else 1).

(** The point lies in the closed box of the given latitudes and
    longitudes. *)
Definition in_box (lat lon south north west east : Q) : Prop :=
  (south <= lat)%Q /\ (lat <= north)%Q /\ (west <= lon)%Q /\ (lon <= east)%Q.

(** The incidents that an answer of the incident service delivers: those
    of a decoded success answer, none otherwise. *)
Definition delivered {num : Type}
    (reply : HttpReply (TomTom.IncidentsData num))
  : list (Incidents.Incident num) :=
  match reply with
  | Response status_code (Some data) =>
      if status_code =? 200 then default [] data.(TomTom.incidents) else []
  | _ => []
  end.

(** The risk labels that the summary counts. *)
Definition counted_levels : list string := ["High"; "Medium"; "Low"].

End Notions.

(** * Sample inputs *)

Module Samples.

(** A cache with default timeout 600 holding one entry stored at time 100. *)
Definition one_entry_cache : Cache.CacheManager string :=
  Cache.set (Cache.new 600) "k" "v" 100.

(** [{'elements': [{'tags': {'maxspeed': '50', 'highway': 'motorway'}}]}] *)
Definition motorway_signed_50 : OsmData :=
  {| elements :=
       Some [ {| tags := Some (<["maxspeed" := "50"]>
                                 (<["highway" := "motorway"]> ∅)) |} ] |}.

(** [{'elements': [{'tags': {'maxspeed': '80', 'highway': 'motorway'}}]}] *)
Definition motorway_signed_80 : OsmData :=
  {| elements :=
       Some [ {| tags := Some (<["maxspeed" := "80"]>
                                 (<["highway" := "motorway"]> ∅)) |} ] |}.

(** A weather answer with status 200 whose body is [{}]. *)
Definition reply_without_current : HttpReply WeatherData :=
  Response 200 (Some {| current := None |}).

(** [{'properties': {}}]: an incident whose properties bag has no category
    code. *)
Definition incident_without_code : Incidents.Incident Z :=
  {| Incidents.incident_type := None;
     Incidents.geometry := None;
     Incidents.properties :=
       Some {| Incidents.iconCategory := None;
               Incidents.incident_id := None;
               Incidents.startTime := None |};
     Incidents.source_region := None |}.

(** Incidents with a given geometry and source-region tag, category 1. *)
Definition accident (ty : string) (coords : Incidents.Coordinates Z)
    (region : Z) : Incidents.Incident Z :=
  {| Incidents.incident_type := Some "Feature";
     Incidents.geometry :=
       Some {| Incidents.geometry_type := Some ty;
               Incidents.coordinates := Some coords |};
     Incidents.properties :=
       Some {| Incidents.iconCategory := Some 1;
               Incidents.incident_id := None;
               Incidents.startTime := None |};
     Incidents.source_region := Some region |}.

(** The same point reported by regions 3 and 7, and another point between. *)
Definition reported_twice : list (Incidents.Incident Z) :=
  [ accident "Point" (Incidents.Position [4; 52]) 3;
    accident "Point" (Incidents.Position [5; 51]) 3;
    accident "Point" (Incidents.Position [4; 52]) 7 ].

(** A stand-in for the float formatters, enough to run the extractors on
    sample inputs: every number is printed alike, so all coordinates share
    one cache key. *)
Definition constant_format (x : Q) : string := "0.0000".

(** A weather extractor and a road extractor with empty caches. *)
Definition fresh_weather : Weather.WeatherFeatureExtractor :=
  {| Weather.cache := Cache.new 600 |}.
Definition fresh_road : Road.RoadFeatureExtractor :=
  {| Road.cache := Cache.new 600 |}.

(** A complete weather answer: 4.5 degrees, 1.2 mm, wind 20, code 61. *)
Definition rainy_weather : WeatherData :=
  {| current := Some {| temperature_2m := Some (45 # 10)%Q;
                        current_precipitation := Some (12 # 10)%Q;
                        wind_speed_10m := Some 20%Q;
                        weathercode := Some 61 |} |}.

(** [{'tags': {'maxspeed': '80', 'highway': 'motorway'}}] *)
Definition motorway_element_80 : OsmElement :=
  {| tags := Some (<["maxspeed" := "80"]> (<["highway" := "motorway"]> ∅)) |}.

(** An engine with empty caches and a world in which every remote query
    fails, observed on a Monday in January at noon. *)
Definition fresh_engine : Engine.CrashScopeFeatureEngine :=
  {| Engine.weather_extractor := fresh_weather;
     Engine.road_extractor := fresh_road |}.

Definition offline_env : Engine.Env :=
  {| Engine.weather_now_get := 0; Engine.weather_now_set := 0;
     Engine.weather_reply := RequestException;
     Engine.datetime_now :=
       {| Temporal.dt_year := 2025; Temporal.dt_month := 1;
          Temporal.dt_hour := 12; Temporal.dt_weekday := 0 |};
     Engine.road_now_get := 0; Engine.road_now_set := 0;
     Engine.road_reply := RequestException;
     Engine.place_reply := RequestException |}.

(** Boxes 1 and 2 both deliver the same accident; the other requests
    fail. *)
Definition overlapping_replies (i : nat)
  : HttpReply (TomTom.IncidentsData Z) :=
  if (i <=? 2)%nat
  then Response 200
         (Some {| TomTom.incidents :=
                    Some [ {| Incidents.incident_type := Some "Feature";
                              Incidents.geometry :=
                                Some {| Incidents.geometry_type := Some "Point";
                                        Incidents.coordinates :=
                                          Some (Incidents.Position [4; 52]) |};
                              Incidents.properties :=
                                Some {| Incidents.iconCategory := Some 1;
                                        Incidents.incident_id := None;
                                        Incidents.startTime := None |};
                              Incidents.source_region := None |} ] |})
  else RequestException.

(** A parser stand-in that rejects every time stamp. *)
Definition reject_timestamp (s : string) : option Temporal.datetime := None.

(** The accident at [4, 52] processed while every remote query fails, and
    a result list holding that record twice. *)
Definition processed_offline : option (@App.ProcessedIncident Z) :=
  fst (App._process_incident constant_format constant_format inject_Z
         reject_timestamp fresh_engine
         (accident "Point" (Incidents.Position [4; 52]) 3) offline_env).

Definition two_results : list (@App.ProcessedIncident Z) :=
  match processed_offline with
  | Some r => [r; r]
  | None => []
  end.

(** The maximal record with the speed limit lowered to 60. *)
Definition max_risk_at_60 : FeatureRecord :=
  {| weather := Risk.max_risk_record.(weather);
     temporal := Risk.max_risk_record.(temporal);
     road := Risk.sample_road 60 "no";
     area_type := "Buiten"; lat := 52; lon := 5;
     aantal_partijen := 2; lichtgesteldheid := "Duisternis" |}.

End Samples.

(** * Properties *)

(** ** Rational comparisons *)

Lemma Qltb_true (x y : Q) : Qltb x y = true <-> (x < y)%Q.
Proof.
  unfold Qltb. rewrite negb_true_iff.
  destruct (Qle_bool y x) eqn:E.
  - apply Qle_bool_iff in E. split; [discriminate | intros H; lra].
  - split; [intros _ | reflexivity].
    destruct (Qlt_le_dec x y) as [H | H]; [exact H |].
    apply Qle_bool_iff in H. congruence.
Qed.

Lemma Qgtb_true (x y : Q) : Qgtb x y = true <-> (y < x)%Q.
Proof. apply (Qltb_true y x). Qed.

Lemma Qgtb_false (x y : Q) : Qgtb x y = false <-> (x <= y)%Q.
Proof.
  unfold Qgtb. rewrite negb_false_iff. apply Qle_bool_iff.
Qed.

Lemma Qltb_compat (x x' y : Q) : (x == x')%Q -> Qltb x y = Qltb x' y.
Proof.
  intros E. destruct (Qltb x' y) eqn:H.
  - apply Qltb_true in H. apply Qltb_true. lra.
  - destruct (Qltb x y) eqn:H'; [| reflexivity].
    apply Qltb_true in H'. assert (x' < y)%Q as H2 by lra.
    apply Qltb_true in H2. congruence.
Qed.

(** ** Risk scoring *)

Section RiskFacts.
Import Risk.

Lemma speed_factor_range f : 0 <= speed_factor f <= 3.
Proof. unfold speed_factor. repeat case_match; lia. Qed.

Lemma weather_factor_range f : 0 <= weather_factor f <= 2.
Proof. unfold weather_factor. repeat case_match; lia. Qed.

Lemma time_factor_range f : 0 <= time_factor f <= 2.
Proof. unfold time_factor. repeat case_match; lia. Qed.

Lemma location_factor_range f : 0 <= location_factor f <= 2.
Proof. unfold location_factor. repeat case_match; lia. Qed.

Lemma parties_factor_range f : 0 <= parties_factor f <= 1.
Proof. unfold parties_factor. repeat case_match; lia. Qed.

Lemma raw_score_range f : 0 <= raw_score f <= 10.
Proof.
  unfold raw_score.
  pose proof (speed_factor_range f). pose proof (weather_factor_range f).
  pose proof (time_factor_range f). pose proof (location_factor_range f).
  pose proof (parties_factor_range f). lia.
Qed.

Lemma raw_score_same_inputs f g : same_risk_inputs f g -> raw_score f = raw_score g.
Proof.
  intros (Hs & Hw & Ht & Hn & Hr & Ha & Hl & Hp).
  unfold raw_score, speed_factor, weather_factor, time_factor,
    location_factor, parties_factor.
  rewrite Hs, Hw, Hn, Hr, Ha, Hl, Hp.
  rewrite !(Qltb_compat _ _ _ Ht). reflexivity.
Qed.

Lemma risk_level_cases (s : Z) :
  (7 <= s -> risk_level s = "High")
  /\ (4 <= s < 7 -> risk_level s = "Medium")
  /\ (s < 4 -> risk_level s = "Low").
Proof.
  unfold risk_level. repeat split; intros H.
  - destruct (Z.geb_spec s 7); [reflexivity | lia].
  - destruct (Z.geb_spec s 7); [lia |].
    destruct (Z.geb_spec s 4); [reflexivity | lia].
  - destruct (Z.geb_spec s 7); [lia |].
    destruct (Z.geb_spec s 4); [lia | reflexivity].
Qed.

(** C1. The risk score is a function of the keys it reads (records that
    agree on them get the same score and level), it always lies in [0,10],
    the record with speed_limit=130, wet, night, rural, lit="no" and two
    parties collects 3+2+2+2+1 and scores exactly 10, and the level is High
    from 7, Medium from 4 up to 7, Low below. *)
Theorem risk_score_contract :
  (forall f g, same_risk_inputs f g -> risk_assessment f = risk_assessment g)
  /\ (forall f, 0 <= _calculate_risk_score f <= 10)
  /\ (forall f,
        f.(road).(speed_limit) = 130 -> f.(weather).(is_wet) = true ->
        f.(temporal).(is_night) = true -> f.(area_type) = "Buiten" ->
        f.(road).(lit) = "no" -> f.(aantal_partijen) = 2 ->
        speed_factor f = 3 /\ weather_factor f = 2 /\ time_factor f = 2
        /\ location_factor f = 2 /\ parties_factor f = 1
        /\ _calculate_risk_score f = 10)
  /\ (forall f,
        let score := _calculate_risk_score f in
        let level := snd (risk_assessment f) in
        (7 <= score -> level = "High")
        /\ (4 <= score < 7 -> level = "Medium")
        /\ (score < 4 -> level = "Low")).
Proof.
  split; [| split; [| split]].
  - intros f g H. unfold risk_assessment, _calculate_risk_score.
    rewrite (raw_score_same_inputs f g H). reflexivity.
  - intros f. unfold _calculate_risk_score.
    pose proof (raw_score_range f). lia.
  - intros f Hs Hw Hn Ha Hl Hp.
    assert (speed_factor f = 3) as E1 by (unfold speed_factor; rewrite Hs; reflexivity).
    assert (weather_factor f = 2) as E2 by (unfold weather_factor; rewrite Hw; reflexivity).
    assert (time_factor f = 2) as E3 by (unfold time_factor; rewrite Hn; reflexivity).
    assert (location_factor f = 2) as E4
      by (unfold location_factor; rewrite Ha, Hl; reflexivity).
    assert (parties_factor f = 1) as E5
      by (unfold parties_factor; rewrite Hp; reflexivity).
    repeat split; try assumption.
    unfold _calculate_risk_score, raw_score. rewrite E1, E2, E3, E4, E5.
    reflexivity.
  - intros f. cbn zeta. unfold risk_assessment. cbn [snd].
    apply risk_level_cases.
Qed.

(** The maximal record of C1 evaluates to 10. *)
Lemma risk_score_contract_witness :
  same_risk_inputs max_risk_record max_risk_record
  /\ _calculate_risk_score max_risk_record = 10
  /\ snd (risk_assessment max_risk_record) = "High".
Proof.
  pose proof risk_score_contract as (_ & _ & Hmax & Hlevel).
  assert (_calculate_risk_score max_risk_record = 10) as E
    by (apply (Hmax max_risk_record); reflexivity).
  split; [| split].
  - unfold same_risk_inputs. repeat split; reflexivity.
  - exact E.
  - apply (Hlevel max_risk_record). rewrite E. lia.
Defined.

(** C10. The five contributions are bounded by 3, 2, 2, 2 and 1, so the sum
    never exceeds 10 and [min(score, 10)] returns the sum unchanged. *)
Theorem clamp_is_identity (f : FeatureRecord) :
  speed_factor f <= 3 /\ weather_factor f <= 2 /\ time_factor f <= 2
  /\ location_factor f <= 2 /\ parties_factor f <= 1
  /\ raw_score f
     = speed_factor f + weather_factor f + time_factor f
       + location_factor f + parties_factor f
  /\ raw_score f <= 10
  /\ _calculate_risk_score f = raw_score f.
Proof.
  pose proof (speed_factor_range f). pose proof (weather_factor_range f).
  pose proof (time_factor_range f). pose proof (location_factor_range f).
  pose proof (parties_factor_range f). pose proof (raw_score_range f).
  unfold _calculate_risk_score.
  repeat match goal with |- _ /\ _ => split end; try lia.
  unfold raw_score. lia.
Qed.

End RiskFacts.

Section RiskLabels.
Import Risk.

(** C2 as the design document words it does not hold: at speed_limit=90 the
    speed label is High although 90 lies in the score's middle tier, and an
    unlit road in an urban area adds a location point while the location
    label stays Low. *)
Lemma labels_restate_score_tiers_fails :
  ~ labels_restate_score_tiers urban_unlit_90_record.
Proof.
  intros (Hhigh & _).
  assert ((risk_factors urban_unlit_90_record).(speed_risk) = "High") as E
    by reflexivity.
  apply Hhigh in E. cbn in E. lia.
Qed.

(** The same record also breaks the location part on its own. *)
Lemma location_label_ignores_lighting :
  location_factor urban_unlit_90_record = 1
  /\ (risk_factors urban_unlit_90_record).(location_risk) = "Low".
Proof. split; reflexivity. Qed.

(** C2, amended. The speed label has thresholds of its own (High above 80,
    Medium above 50 up to 80, Low otherwise); the weather and time labels
    restate the tiers of the score (High for the two-point tier, Medium for
    the one-point tier, Low otherwise); the location label is Medium exactly
    for a rural area and Low otherwise, whatever the lighting; the
    visibility label is High exactly in darkness and Low otherwise. *)
Theorem risk_labels_thresholds (f : FeatureRecord) :
  let labels := risk_factors f in
  (labels.(speed_risk) = "High" <-> f.(road).(speed_limit) > 80)
  /\ (labels.(speed_risk) = "Medium" <-> 50 < f.(road).(speed_limit) <= 80)
  /\ (labels.(speed_risk) = "Low" <-> f.(road).(speed_limit) <= 50)
  /\ (labels.(weather_risk) = "High" <-> weather_factor f = 2)
  /\ (labels.(weather_risk) = "Medium" <-> weather_factor f = 1)
  /\ (labels.(weather_risk) = "Low" <-> weather_factor f = 0)
  /\ (labels.(temporal_risk) = "High" <-> time_factor f = 2)
  /\ (labels.(temporal_risk) = "Medium" <-> time_factor f = 1)
  /\ (labels.(temporal_risk) = "Low" <-> time_factor f = 0)
  /\ (labels.(location_risk) = "Medium" <-> f.(area_type) = "Buiten")
  /\ (labels.(location_risk) = "Low" <-> f.(area_type) <> "Buiten")
  /\ (labels.(visibility_risk) = "High" <-> f.(lichtgesteldheid) = "Duisternis")
  /\ (labels.(visibility_risk) = "Low" <-> f.(lichtgesteldheid) <> "Duisternis").
Proof.
  cbn zeta. unfold risk_factors, weather_factor, time_factor. cbn [speed_risk
    weather_risk temporal_risk location_risk visibility_risk].
  repeat match goal with |- _ /\ _ => split end.
  1-3: destruct (Z.gtb_spec (speed_limit (road f)) 80);
       destruct (Z.gtb_spec (speed_limit (road f)) 50);
       split; intros; (discriminate || lia || reflexivity).
  1-3: destruct (is_wet (weather f) || Qltb (temperature (weather f)) 3);
       destruct (Qltb (temperature (weather f)) 10);
       split; intros; (discriminate || reflexivity).
  1-3: destruct (is_night (temporal f)); destruct (is_rush_hour (temporal f));
       split; intros; (discriminate || reflexivity).
  1-2: destruct (String.eqb_spec (area_type f) "Buiten");
       split; intros; (discriminate || congruence).
  1-2: destruct (String.eqb_spec (lichtgesteldheid f) "Duisternis");
       split; intros; (discriminate || congruence).
Qed.

End RiskLabels.

(** ** Cache manager *)

Section CacheFacts.
Import Cache.
Context {V : Type}.
Implicit Types (self : CacheManager V) (key : string) (timeout : option Z).

Lemma expired_true now cache_time limit :
  expired now cache_time limit = true <-> (inject_Z limit < now - cache_time)%Q.
Proof. apply Qgtb_true. Qed.

Lemma expired_false now cache_time limit :
  expired now cache_time limit = false <-> (now - cache_time <= inject_Z limit)%Q.
Proof. apply Qgtb_false. Qed.

(** Where the computed timeout and the documented one agree. *)
Lemma effective_timeout_none self :
  effective_timeout self None = self.(default_timeout).
Proof. reflexivity. Qed.

Lemma effective_timeout_nonzero self t :
  t <> 0 -> effective_timeout self (Some t) = t.
Proof.
  intros H. unfold effective_timeout.
  destruct (Z.eqb_spec t 0); [contradiction | reflexivity].
Qed.

Lemma effective_timeout_zero self :
  effective_timeout self (Some 0) = self.(default_timeout).
Proof. reflexivity. Qed.

Lemma effective_timeout_documented self timeout :
  timeout <> Some 0 ->
  effective_timeout self timeout = documented_timeout self timeout.
Proof.
  destruct timeout as [t |]; [| reflexivity].
  intros H. apply effective_timeout_nonzero.
  intros E. apply H. exact (f_equal Some E).
Qed.

Lemma get_missing self key timeout now :
  self.(_cache) !! key = None -> get self key timeout now = (None, self).
Proof. intros H. unfold get. rewrite H. reflexivity. Qed.

Lemma get_expired self key timeout now cache_time value :
  self.(_cache) !! key = Some (cache_time, value) ->
  (inject_Z (effective_timeout self timeout) < now - cache_time)%Q ->
  get self key timeout now = (None, with_cache self (delete key self.(_cache))).
Proof.
  intros H Hage. unfold get. rewrite H. cbn zeta.
  apply expired_true in Hage. rewrite Hage. reflexivity.
Qed.

Lemma get_fresh self key timeout now cache_time value :
  self.(_cache) !! key = Some (cache_time, value) ->
  (now - cache_time <= inject_Z (effective_timeout self timeout))%Q ->
  get self key timeout now = (Some value, self).
Proof.
  intros H Hage. unfold get. rewrite H. cbn zeta.
  apply expired_false in Hage. rewrite Hage. reflexivity.
Qed.

Lemma get_after_set self key value now_set timeout now :
  (now - now_set <= inject_Z (effective_timeout self timeout))%Q ->
  get (set self key value now_set) key timeout now
  = (Some value, set self key value now_set).
Proof.
  intros Hage. eapply get_fresh; [| exact Hage].
  unfold set, with_cache; cbn. apply lookup_insert_eq.
Qed.

(** With respect to the timeout that [get] computes for itself: [get]
    returns a value only when the entry's age [now - cache_time] is at most
    that timeout; an entry older than that is removed from the map and the
    call reports absent; a missing key is reported absent and the manager is
    left as it was. *)
Theorem get_never_stale self key timeout now :
  let limit := inject_Z (effective_timeout self timeout) in
  (forall value,
      fst (get self key timeout now) = Some value ->
      exists cache_time,
        self.(_cache) !! key = Some (cache_time, value)
        /\ (now - cache_time <= limit)%Q
        /\ snd (get self key timeout now) = self)
  /\ (forall cache_time value,
        self.(_cache) !! key = Some (cache_time, value) ->
        (limit < now - cache_time)%Q ->
        fst (get self key timeout now) = None
        /\ snd (get self key timeout now)
           = with_cache self (delete key self.(_cache))
        /\ (snd (get self key timeout now)).(_cache) !! key = None)
  /\ (self.(_cache) !! key = None ->
      get self key timeout now = (None, self)).
Proof.
  cbn zeta. split; [| split].
  - intros value Hget. unfold get in *.
    destruct (self.(_cache) !! key) as [[cache_time value'] |] eqn:Hk;
      [| discriminate].
    cbn zeta in *.
    destruct (expired now cache_time (effective_timeout self timeout)) eqn:He;
      cbn in Hget; [discriminate |].
    exists cache_time. injection Hget as ->.
    split; [reflexivity | split; [| reflexivity]].
    apply expired_false. exact He.
  - intros cache_time value Hk Hage.
    rewrite (get_expired _ _ _ _ _ _ Hk Hage). cbn.
    split; [reflexivity | split; [reflexivity |]].
    apply lookup_delete_eq.
  - apply get_missing.
Qed.

(** [cleanup_expired] removes exactly the entries that are older than the
    timeout in effect and keeps the others. *)
Lemma lookup_foldl_delete (m : gmap string (Q * V)) (keys : list string) key :
  foldl (fun m k => delete k m) m keys !! key
  = if decide (key ∈ keys) then None else m !! key.
Proof.
  revert m. induction keys as [| k keys IH]; intros m; cbn.
  - rewrite decide_False by apply not_elem_of_nil. reflexivity.
  - rewrite IH. destruct (decide (key ∈ keys)) as [Hin | Hout].
    + rewrite decide_True by (right; exact Hin). reflexivity.
    + destruct (decide (key = k)) as [-> | Hne].
      * rewrite decide_True by left. apply lookup_delete_eq.
      * rewrite decide_False.
        -- apply lookup_delete_ne. congruence.
        -- intros [? | ?]%elem_of_cons; contradiction.
Qed.

Lemma expired_key_iff (m : gmap string (Q * V)) now limit key :
  key ∈ List.map fst
          (List.filter (fun '(_, (cache_time, _)) => expired now cache_time limit)
                       (map_to_list m))
  <-> exists cache_time value,
        m !! key = Some (cache_time, value)
        /\ expired now cache_time limit = true.
Proof.
  rewrite list_elem_of_In, in_map_iff. split.
  - intros ([k [cache_time value]] & Hk & Hin). cbn in Hk. subst k.
    apply filter_In in Hin as [Hin Hexp].
    apply list_elem_of_In, elem_of_map_to_list in Hin.
    exists cache_time, value. split; [exact Hin | exact Hexp].
  - intros (cache_time & value & Hk & Hexp).
    exists (key, (cache_time, value)). split; [reflexivity |].
    apply filter_In. split; [| exact Hexp].
    apply list_elem_of_In, elem_of_map_to_list. exact Hk.
Qed.

Lemma cleanup_expired_lookup self timeout now key :
  (snd (cleanup_expired self timeout now)).(_cache) !! key
  = match self.(_cache) !! key with
    | Some (cache_time, value) =>
        if expired now cache_time (effective_timeout self timeout)
        then None else Some (cache_time, value)
    | None => None
    end.
Proof.
  unfold cleanup_expired. cbn. rewrite lookup_foldl_delete.
  destruct (decide (key ∈ _)) as [Hin | Hout].
  - apply expired_key_iff in Hin as (cache_time & value & -> & ->). reflexivity.
  - destruct (self.(_cache) !! key) as [[cache_time value] |] eqn:Hk;
      [| reflexivity].
    destruct (expired now cache_time (effective_timeout self timeout)) eqn:He;
      [| reflexivity].
    exfalso. apply Hout. apply expired_key_iff. eauto.
Qed.

End CacheFacts.

(** An entry stored at time 100 and read at time 1000 with the default
    timeout of 600 is gone after the read. *)
Lemma get_never_stale_witness :
  fst (Cache.get Samples.one_entry_cache "k" None 1000) = None
  /\ (snd (Cache.get Samples.one_entry_cache "k" None 1000)).(Cache._cache) !! "k"
     = None.
Proof.
  pose proof (get_never_stale Samples.one_entry_cache "k" None 1000)
    as (_ & Hexp & _).
  destruct (Hexp 100%Q "v") as (H1 & _ & H3).
  - reflexivity.
  - reflexivity.
  - split; [exact H1 | exact H3].
Defined.

(** With respect to the documented timeout (the caller's value whenever
    one is supplied) the same holds for every call that does not supply 0. *)
Lemma get_never_stale_unless_zero {V} (self : Cache.CacheManager V)
    (key : string) (timeout : option Z) (now : Q) :
  timeout <> Some 0 ->
  let limit := inject_Z (Cache.documented_timeout self timeout) in
  (forall value,
      fst (Cache.get self key timeout now) = Some value ->
      exists cache_time,
        self.(Cache._cache) !! key = Some (cache_time, value)
        /\ (now - cache_time <= limit)%Q)
  /\ (forall cache_time value,
        self.(Cache._cache) !! key = Some (cache_time, value) ->
        (limit < now - cache_time)%Q ->
        Cache.get self key timeout now
        = (None, Cache.with_cache self (delete key self.(Cache._cache)))).
Proof.
  intros Hnz. cbn zeta.
  rewrite <- (effective_timeout_documented self timeout Hnz).
  split.
  - intros value Hget. unfold Cache.get in Hget.
    destruct (self.(Cache._cache) !! key) as [[cache_time value'] |];
      [| discriminate].
    cbn zeta in Hget.
    destruct (Cache.expired now cache_time
                (Cache.effective_timeout self timeout)) eqn:He;
      cbn in Hget; [discriminate |].
    injection Hget as ->. exists cache_time.
    split; [reflexivity | apply expired_false; exact He].
  - intros cache_time value Hk Hage. eapply get_expired; eassumption.
Qed.

(** C6, at the input where it fails: the entry stored at time 100 is read
    at time 105 with a supplied timeout of 0.  Its age of 5 exceeds the
    documented timeout 0, yet [get] returns the value and leaves the entry
    in the map. *)
Theorem zero_timeout_serves_stale_value :
  Samples.one_entry_cache.(Cache._cache) !! "k" = Some (100%Q, "v")
  /\ Cache.documented_timeout Samples.one_entry_cache (Some 0) = 0
  /\ (inject_Z (Cache.documented_timeout Samples.one_entry_cache (Some 0%Z))
      < 105 - 100)%Q
  /\ Cache.get Samples.one_entry_cache "k" (Some 0) 105
     = (Some "v", Samples.one_entry_cache).
Proof. repeat split; vm_compute; reflexivity. Qed.

(** C5, at the input where it fails: with a configured default of 600, a
    caller-supplied timeout of 0 is replaced by 600 in both [get] and
    [cleanup_expired], so a five-second-old entry is still served and not
    swept, although the documented timeout is 0. *)
Theorem zero_timeout_falls_back_to_default :
  Cache.documented_timeout Samples.one_entry_cache (Some 0) = 0
  /\ Cache.effective_timeout Samples.one_entry_cache (Some 0) = 600
  /\ fst (Cache.get Samples.one_entry_cache "k" (Some 0) 105) = Some "v"
  /\ fst (Cache.cleanup_expired Samples.one_entry_cache (Some 0) 105) = 0.
Proof. repeat split; vm_compute; reflexivity. Qed.

(** ** Incidents: coordinate extraction and de-duplication *)

Section IncidentFacts.
Import Incidents.
Context {num : Type} `{EqDecision num}.
Implicit Types (incident a b : Incident num) (key : IncidentKey num).
Implicit Types (d unique : list (IncidentKey num * Incident num)).
Implicit Types (incidents : list (Incident num)).

(** The entry that the loop records for an incident. *)
Local Abbreviation entry i := (_generate_incident_key i, i).

Lemma has_key_true key d : has_key key d = true <-> key ∈ d.*1.
Proof. unfold has_key. apply bool_decide_eq_true. Qed.

Lemma has_key_false key d : has_key key d = false <-> key ∉ d.*1.
Proof. unfold has_key. apply bool_decide_eq_false. Qed.

Lemma dict_get_None key d : dict_get key d = None <-> key ∉ d.*1.
Proof.
  induction d as [| [k v] d IH]; cbn.
  - split; [intros _; apply not_elem_of_nil | reflexivity].
  - rewrite not_elem_of_cons. destruct (decide (k = key)) as [-> | Hne].
    + split; [discriminate | intros [Hk _]; contradiction].
    + rewrite IH. split; [intros Hd; split; [congruence | exact Hd] | intros [_ Hd]; exact Hd].
Qed.

Lemma dict_get_app key d d' :
  dict_get key (d ++ d')
  = match dict_get key d with Some v => Some v | None => dict_get key d' end.
Proof.
  induction d as [| [k v] d IH]; cbn; [reflexivity |].
  destruct (decide (k = key)); [reflexivity | exact IH].
Qed.

Lemma dedup_loop_app d incidents incidents' :
  dedup_loop d (incidents ++ incidents')
  = dedup_loop (dedup_loop d incidents) incidents'.
Proof.
  revert d. induction incidents as [| i l IH]; intros d; cbn; [reflexivity |].
  destruct (has_key _ d); apply IH.
Qed.

(** Looking a key up after the loop: an entry already present wins, then
    the first incident of the list that has the key. *)
Lemma dedup_loop_lookup incidents d key :
  dict_get key (dedup_loop d incidents)
  = match dict_get key d with
    | Some v => Some v
    | None => first_with_key key incidents
    end.
Proof.
  revert d. induction incidents as [| i l IH]; intros d; cbn.
  - destruct (dict_get key d); reflexivity.
  - destruct (has_key (_generate_incident_key i) d) eqn:Hk; rewrite IH.
    + destruct (dict_get key d) eqn:Hd; [reflexivity |].
      apply has_key_true in Hk. apply dict_get_None in Hd.
      rewrite bool_decide_eq_false_2; [reflexivity |].
      intros <-. contradiction.
    + rewrite dict_get_app. destruct (dict_get key d); [reflexivity |].
      cbn. destruct (decide (_generate_incident_key i = key)) as [E | E].
      * rewrite bool_decide_eq_true_2 by exact E. reflexivity.
      * rewrite bool_decide_eq_false_2 by exact E. reflexivity.
Qed.

Lemma dedup_loop_NoDup incidents d :
  NoDup d.*1 -> NoDup (dedup_loop d incidents).*1.
Proof.
  revert d. induction incidents as [| i l IH]; intros d Hd; cbn; [exact Hd |].
  destruct (has_key (_generate_incident_key i) d) eqn:Hk; apply IH; [exact Hd |].
  rewrite fmap_app. cbn. apply NoDup_app. split; [exact Hd | split].
  - intros k Hin Hin'. apply list_elem_of_singleton in Hin'. subst k.
    apply has_key_false in Hk. contradiction.
  - apply NoDup_singleton.
Qed.

Lemma dedup_loop_sublist incidents d :
  dedup_loop d incidents `sublist_of` d ++ map (fun i => entry i) incidents.
Proof.
  revert d. induction incidents as [| i l IH]; intros d; cbn.
  - rewrite app_nil_r. reflexivity.
  - destruct (has_key (_generate_incident_key i) d).
    + etransitivity; [apply IH |].
      apply sublist_app; [reflexivity | apply sublist_cons; reflexivity].
    + etransitivity; [apply IH |]. rewrite <- app_assoc. reflexivity.
Qed.

(** Identical coordinates and category code give identical keys. *)
Lemma key_of_identical_event a b :
  coords_of a = coords_of b -> icon_category_of a = icon_category_of b ->
  _generate_incident_key a = _generate_incident_key b.
Proof. intros Hc Hi. unfold _generate_incident_key. rewrite Hc, Hi. reflexivity. Qed.

(** An incident whose key was seen before leaves the dictionary as it is. *)
Lemma dedup_loop_seen d incident :
  _generate_incident_key incident ∈ d.*1 ->
  dedup_loop d [incident] = d.
Proof. intros Hin. cbn. apply has_key_true in Hin. rewrite Hin. reflexivity. Qed.

Lemma dedup_loop_keeps_keys incidents d key :
  key ∈ d.*1 -> key ∈ (dedup_loop d incidents).*1.
Proof.
  intros Hin. destruct (dict_get key (dedup_loop d incidents)) eqn:E.
  - destruct (decide (key ∈ (dedup_loop d incidents).*1)) as [Hk | Hk];
      [exact Hk |].
    apply dict_get_None in Hk. congruence.
  - rewrite dedup_loop_lookup in E.
    destruct (dict_get key d) eqn:Hd; [discriminate |].
    apply dict_get_None in Hd. contradiction.
Qed.

Lemma dedup_loop_records incidents d incident :
  incident ∈ incidents ->
  _generate_incident_key incident ∈ (dedup_loop d incidents).*1.
Proof.
  intros Hin. apply list_elem_of_split in Hin as (l1 & l2 & ->).
  rewrite dedup_loop_app. cbn.
  destruct (has_key _ (dedup_loop d l1)) eqn:Hk.
  - apply dedup_loop_keeps_keys. apply has_key_true. exact Hk.
  - apply dedup_loop_keeps_keys. rewrite fmap_app. cbn.
    apply elem_of_app. right. apply list_elem_of_singleton. reflexivity.
Qed.

(** C7. De-duplication walks the list in order and keeps, for every key,
    the first incident that has it: the keys of the result are pairwise
    distinct, the result is an order-preserving selection of the input
    entries (each stored incident is an input incident, unchanged, under its
    own key), looking a key up yields the first incident of the input with
    that key, two incidents with the same coordinates and category code
    collapse to the first one, and a later duplicate changes nothing. *)
Theorem deduplication_first_wins :
  (forall incidents,
      NoDup (_deduplicate_incidents incidents).*1
      /\ _deduplicate_incidents incidents
           `sublist_of` map (fun i => entry i) incidents
      /\ forall key,
           dict_get key (_deduplicate_incidents incidents)
           = first_with_key key incidents)
  /\ (forall a b,
        coords_of a = coords_of b -> icon_category_of a = icon_category_of b ->
        _deduplicate_incidents [a; b] = [entry a])
  /\ (forall before a between b after,
        _generate_incident_key a = _generate_incident_key b ->
        _deduplicate_incidents (before ++ a :: between ++ b :: after)
        = _deduplicate_incidents (before ++ a :: between ++ after)).
Proof.
  split; [| split].
  - intros incidents. unfold _deduplicate_incidents. split; [| split].
    + apply dedup_loop_NoDup. constructor.
    + apply (dedup_loop_sublist incidents []).
    + intros key. rewrite dedup_loop_lookup. reflexivity.
  - intros a b Hc Hi. unfold _deduplicate_incidents.
    assert (has_key (_generate_incident_key a) [] = false) as Hfresh
      by (apply has_key_false; apply not_elem_of_nil).
    assert (has_key (_generate_incident_key b) ([] ++ [entry a]) = true)
      as Hseen.
    { apply has_key_true. rewrite <- (key_of_identical_event a b Hc Hi).
      apply list_elem_of_singleton. reflexivity. }
    cbn [dedup_loop]. rewrite Hfresh, Hseen. reflexivity.
  - intros before a between b after Hkey. unfold _deduplicate_incidents.
    replace (before ++ a :: between ++ b :: after)
      with ((before ++ a :: between) ++ [b] ++ after)
      by (rewrite <- app_assoc; reflexivity).
    replace (before ++ a :: between ++ after)
      with ((before ++ a :: between) ++ after)
      by (rewrite <- app_assoc; reflexivity).
    rewrite !dedup_loop_app. f_equal.
    apply dedup_loop_seen. rewrite <- Hkey.
    apply dedup_loop_records. apply list_elem_of_here.
Qed.

(** C9. A Point with coordinates [lon, lat] and a LineString whose first
    vertex is [lon, lat] both yield (lat, lon); a geometry of any other
    type yields nothing. *)
Theorem point_and_linestring_agree :
  (forall incident g (lon lat : num),
      incident.(geometry) = Some g ->
      g.(geometry_type) = Some "Point" ->
      g.(coordinates) = Some (Position [lon; lat]) ->
      extract_coordinates incident = Some (VNum lat, VNum lon))
  /\ (forall incident g (lon lat : num) more_of_vertex vertices,
        incident.(geometry) = Some g ->
        g.(geometry_type) = Some "LineString" ->
        g.(coordinates)
          = Some (Positions ((lon :: lat :: more_of_vertex) :: vertices)) ->
        extract_coordinates incident = Some (VNum lat, VNum lon))
  /\ (forall incident g,
        incident.(geometry) = Some g ->
        g.(geometry_type) <> Some "Point" ->
        g.(geometry_type) <> Some "LineString" ->
        extract_coordinates incident = None).
Proof.
  split; [| split].
  - intros incident g lon lat Hg Ht Hc. unfold extract_coordinates.
    rewrite Hg, Hc, Ht. reflexivity.
  - intros incident g lon lat more vertices Hg Ht Hc.
    unfold extract_coordinates. rewrite Hg, Hc, Ht. reflexivity.
  - intros incident g Hg Hp Hl. unfold extract_coordinates. rewrite Hg.
    destruct (coordinates g); [| reflexivity].
    destruct (geometry_type g) as [ty |]; [| reflexivity].
    destruct (String.eqb_spec ty "Point") as [-> | _]; [contradiction |].
    destruct (String.eqb_spec ty "LineString") as [-> | _]; [contradiction |].
    reflexivity.
Qed.

End IncidentFacts.

(** Three reports, the third repeating the first: two entries remain, in
    the order of first appearance, each with the data of its first report. *)
Example dedup_reported_twice :
  Incidents._deduplicate_incidents Samples.reported_twice
  = [ (([[4; 52]], Some 1),
       Samples.accident "Point" (Incidents.Position [4; 52]) 3);
      (([[5; 51]], Some 1),
       Samples.accident "Point" (Incidents.Position [5; 51]) 3) ].
Proof. vm_compute. reflexivity. Qed.

(** The point reported by regions 3 and 7 is kept once, with the data of the
    report from region 3. *)
Lemma deduplication_first_wins_witness :
  Incidents._deduplicate_incidents
    [ Samples.accident "Point" (Incidents.Position [4; 52]) 3;
      Samples.accident "Point" (Incidents.Position [4; 52]) 7 ]
  = [ (([[4; 52]], Some 1),
       Samples.accident "Point" (Incidents.Position [4; 52]) 3) ].
Proof.
  pose proof (@deduplication_first_wins Z _) as (_ & Hsame & _).
  apply (Hsame (Samples.accident "Point" (Incidents.Position [4; 52]) 3)
               (Samples.accident "Point" (Incidents.Position [4; 52]) 7));
    reflexivity.
Defined.

(** A Point at [4, 52] and a LineString starting there give the same pair,
    and a Polygon gives nothing. *)
Lemma point_and_linestring_agree_witness :
  Incidents.extract_coordinates
    (Samples.accident "Point" (Incidents.Position [4; 52]) 3)
  = Some (Incidents.VNum 52, Incidents.VNum 4)
  /\ Incidents.extract_coordinates
       (Samples.accident "LineString"
          (Incidents.Positions [[4; 52]; [5; 53]]) 3)
     = Some (Incidents.VNum 52, Incidents.VNum 4)
  /\ Incidents.extract_coordinates
       (Samples.accident "Polygon"
          (Incidents.Positions [[4; 52]; [5; 53]; [4; 52]]) 3)
     = None.
Proof.
  pose proof (@point_and_linestring_agree Z) as (Hpoint & Hline & Hother).
  split; [| split].
  - eapply Hpoint; reflexivity.
  - eapply Hline; reflexivity.
  - eapply Hother; [reflexivity | discriminate | discriminate].
Defined.

(** ** Python helpers on sample strings *)

Example replace_strips_unit : Py.replace "50 mph" "mph" "" = "50 ".
Proof. reflexivity. Qed.

Example replace_zulu :
  Py.replace "2025-01-15T14:30:00Z" "Z" "+00:00" = "2025-01-15T14:30:00+00:00".
Proof. reflexivity. Qed.

Example int_examples :
  Py.int "50" = Some 50 /\ Py.int " 50 " = Some 50 /\ Py.int "-5" = Some (-5)
  /\ Py.int "1_000" = Some 1000 /\ Py.int "" = None /\ Py.int "5_" = None
  /\ Py.int "NL:urban" = None /\ Py.int "50 km/h" = None.
Proof. repeat split; reflexivity. Qed.

(** ** Road extractor *)

Section RoadFacts.
Import Road.
Implicit Types (tag_map : gmap string string) (features : RoadFeatures).

Lemma apply_lanes_speed tag_map features :
  (apply_lanes tag_map features).(speed_limit) = features.(speed_limit).
Proof. unfold apply_lanes. repeat case_match; reflexivity. Qed.

Lemma apply_surface_speed tag_map features :
  (apply_surface tag_map features).(speed_limit) = features.(speed_limit).
Proof. unfold apply_surface. repeat case_match; reflexivity. Qed.

Lemma apply_lit_speed tag_map features :
  (apply_lit tag_map features).(speed_limit) = features.(speed_limit).
Proof. unfold apply_lit. repeat case_match; reflexivity. Qed.

(** The speed limit of the result is decided by the first two steps. *)
Lemma process_speed_limit road others :
  (_process_osm_data {| elements := Some (road :: others) |}).(speed_limit)
  = (apply_highway (default ∅ road.(tags))
       (apply_maxspeed (default ∅ road.(tags)) _get_default_road_features)
    ).(speed_limit).
Proof.
  unfold _process_osm_data. cbn [elements].
  rewrite apply_lit_speed, apply_surface_speed, apply_lanes_speed. reflexivity.
Qed.

(** A parsed limit other than 50 is returned as parsed, whatever the
    highway tag says. *)
Lemma parsed_limit_kept road others tag_map value n :
  road.(tags) = Some tag_map ->
  tag_map !! "maxspeed" = Some value -> parse_maxspeed value = Some n ->
  n <> 50 ->
  (_process_osm_data {| elements := Some (road :: others) |}).(speed_limit) = n.
Proof.
  intros Ht Hm Hp Hn. rewrite process_speed_limit, Ht. cbn [default from_option id].
  unfold apply_maxspeed. rewrite Hm, Hp.
  unfold apply_highway. destruct (tag_map !! "highway"); [| reflexivity].
  cbn. destruct (Z.eqb_spec n 50); [contradiction | reflexivity].
Qed.

(** A parsed limit of exactly 50 next to a highway tag is replaced by the
    table entry for that highway type. *)
Lemma parsed_50_replaced road others tag_map value highway_type :
  road.(tags) = Some tag_map ->
  tag_map !! "maxspeed" = Some value -> parse_maxspeed value = Some 50 ->
  tag_map !! "highway" = Some highway_type ->
  (_process_osm_data {| elements := Some (road :: others) |}).(speed_limit)
  = default 50 (speed_defaults !! highway_type).
Proof.
  intros Ht Hm Hp Hh. rewrite process_speed_limit, Ht. cbn [default from_option id].
  unfold apply_maxspeed. rewrite Hm, Hp.
  unfold apply_highway. rewrite Hh. reflexivity.
Qed.

(** Without a parsed limit the table decides. *)
Lemma unparsed_limit_from_table road others tag_map highway_type :
  road.(tags) = Some tag_map ->
  (tag_map !! "maxspeed" = None
   \/ exists value, tag_map !! "maxspeed" = Some value /\ parse_maxspeed value = None) ->
  tag_map !! "highway" = Some highway_type ->
  (_process_osm_data {| elements := Some (road :: others) |}).(speed_limit)
  = default 50 (speed_defaults !! highway_type).
Proof.
  intros Ht Hm Hh. rewrite process_speed_limit, Ht. cbn [default from_option id].
  assert (apply_maxspeed tag_map _get_default_road_features
          = _get_default_road_features) as ->.
  { unfold apply_maxspeed. destruct Hm as [-> | (value & -> & ->)]; reflexivity. }
  unfold apply_highway. rewrite Hh. reflexivity.
Qed.

(** The table itself. *)
Lemma speed_defaults_table :
  speed_defaults !! "motorway" = Some 130
  /\ speed_defaults !! "trunk" = Some 100
  /\ speed_defaults !! "primary" = Some 80
  /\ speed_defaults !! "secondary" = Some 80
  /\ speed_defaults !! "tertiary" = Some 60
  /\ speed_defaults !! "residential" = Some 30
  /\ speed_defaults !! "living_street" = Some 15
  /\ default 50 (speed_defaults !! "service") = 50.
Proof. repeat split; vm_compute; reflexivity. Qed.

(** C3, at the input where it fails: a way tagged maxspeed="50" and
    highway="motorway" has a limit that parses to 50, yet the returned
    speed_limit is the table value 130; a signed limit of 80 on the same
    kind of way is returned as 80. *)
Theorem explicit_50_is_overwritten :
  parse_maxspeed "50" = Some 50
  /\ (_process_osm_data Samples.motorway_signed_50).(speed_limit) = 130
  /\ (_process_osm_data Samples.motorway_signed_50).(road_type) = "motorway"
  /\ (_process_osm_data Samples.motorway_signed_80).(speed_limit) = 80.
Proof. repeat split; vm_compute; reflexivity. Qed.

End RoadFacts.

(** ** Weather extractor *)

Section WeatherFacts.
Import Weather.
Context (format_4f : Q -> string).
Implicit Types (self : WeatherFeatureExtractor) (reply : HttpReply WeatherData).

Lemma get_miss_leaves_key_absent {V} (c : Cache.CacheManager V) key timeout now :
  fst (Cache.get c key timeout now) = None ->
  (snd (Cache.get c key timeout now)).(Cache._cache) !! key = None.
Proof.
  unfold Cache.get. destruct (Cache._cache c !! key) as [[cache_time value] |] eqn:Hk.
  - cbn zeta. destruct (Cache.expired _ _ _); cbn; [| discriminate].
    intros _. apply lookup_delete_eq.
  - intros _. exact Hk.
Qed.

(** On a cache miss the service is asked. *)
Lemma extract_asks_on_miss self lat lon now_get now_set reply :
  fst (Cache.get self.(cache) (cache_key format_4f lat lon) None now_get) = None ->
  snd (extract_features format_4f self lat lon now_get now_set reply) = true.
Proof.
  intros Hmiss. unfold extract_features.
  destruct (Cache.get _ _ _ _) as [cached c1]. cbn in Hmiss. subst cached.
  destruct reply as [| status body]; [reflexivity |].
  destruct (status =? 200); [| reflexivity]. destruct body; reflexivity.
Qed.

(** Transport error, non-success status, undecodable body: the default
    profile is returned and nothing is stored, so the key is absent after
    the call and the next call with the same key asks the service again. *)
Lemma upstream_failure_not_cached self lat lon now_get now_set reply :
  fst (Cache.get self.(cache) (cache_key format_4f lat lon) None now_get) = None ->
  upstream_failure reply ->
  let out := extract_features format_4f self lat lon now_get now_set reply in
  fst (fst out) = _get_default_weather
  /\ snd out = true
  /\ (snd (fst out)).(cache).(Cache._cache) !! cache_key format_4f lat lon = None
  /\ forall now_get' now_set' reply',
       snd (extract_features format_4f (snd (fst out)) lat lon
              now_get' now_set' reply') = true.
Proof.
  intros Hmiss Hfail. cbn zeta.
  pose proof (get_miss_leaves_key_absent _ _ _ _ Hmiss) as Habsent.
  assert (extract_features format_4f self lat lon now_get now_set reply
          = (_get_default_weather,
             {| cache := snd (Cache.get self.(cache)
                                (cache_key format_4f lat lon) None now_get) |},
             true)) as ->.
  { unfold extract_features.
    destruct (Cache.get _ _ _ _) as [cached c1]. cbn in Hmiss. subst cached.
    destruct reply as [| status body]; [reflexivity |]. cbn in Hfail.
    destruct (Z.eqb_spec status 200) as [-> | _]; [| reflexivity].
    destruct Hfail as [Hne | ->]; [contradiction | reflexivity]. }
  cbn [fst snd cache]. repeat split; [exact Habsent |].
  intros now_get' now_set' reply'. apply extract_asks_on_miss.
  cbn [cache]. rewrite get_missing; [reflexivity | exact Habsent].
Qed.

(** C4, at the input where it fails: starting from an empty cache, a
    success answer whose body lacks the 'current' block yields the default
    profile, but that profile is stored under the cache key; a later call
    with the same coordinates within the timeout returns it from the cache
    and does not ask the service. *)
Theorem missing_current_block_is_cached
    (default_timeout : Z) (lat lon now_get now_set : Q) :
  let self := {| cache := Cache.new default_timeout |} in
  let out := extract_features format_4f self lat lon now_get now_set
               Samples.reply_without_current in
  failed_lookup Samples.reply_without_current
  /\ fst (fst out) = _get_default_weather
  /\ snd out = true
  /\ (snd (fst out)).(cache).(Cache._cache) !! cache_key format_4f lat lon
     = Some (now_set, _get_default_weather)
  /\ forall now_get' now_set' reply',
       (now_get' - now_set <= inject_Z default_timeout)%Q ->
       extract_features format_4f (snd (fst out)) lat lon
         now_get' now_set' reply'
       = (_get_default_weather, snd (fst out), false).
Proof.
  cbn zeta.
  assert (extract_features format_4f {| cache := Cache.new default_timeout |}
            lat lon now_get now_set Samples.reply_without_current
          = (_get_default_weather,
             {| cache := Cache.set (Cache.new default_timeout)
                           (cache_key format_4f lat lon)
                           _get_default_weather now_set |},
             true)) as ->.
  { unfold extract_features. cbn [cache].
    rewrite get_missing by apply lookup_empty. reflexivity. }
  cbn [fst snd cache].
  split; [right; split; reflexivity |].
  split; [reflexivity |]. split; [reflexivity |]. split.
  - unfold Cache.set, Cache.with_cache. cbn. apply lookup_insert_eq.
  - intros now_get' now_set' reply' Hage.
    unfold extract_features. cbn [cache].
    rewrite get_after_set by exact Hage. reflexivity.
Qed.

End WeatherFacts.

(** ** Feature engine *)

Section EngineFacts.
Import Incidents Engine.
Context {num : Type}.
Context (format_3f format_4f : Q -> string).
Context (fromisoformat : string -> option Temporal.datetime).
Implicit Types (self : CrashScopeFeatureEngine) (env : Env).
Implicit Types (incident_data : option (Incident num)) (incident : Incident num).

Local Abbreviation engineer self latitude longitude timestamp incident_data env :=
  (fst (engineer_features format_3f format_4f fromisoformat self
          latitude longitude timestamp incident_data env)).

(** The party count only depends on the incident argument. *)
Lemma aantal_partijen_engineered self latitude longitude timestamp
    incident_data env :
  (engineer self latitude longitude timestamp incident_data env).(aantal_partijen)
  = match incident_data with
    | Some incident =>
        if truthy incident then _estimate_parties incident else 2
    | None => 2
    end.
Proof.
  unfold engineer_features.
  destruct (Weather.extract_features _ _ _ _ _ _ _) as [[? ?] ?].
  destruct (Road.extract_features _ _ _ _ _ _ _) as [[? ?] ?].
  reflexivity.
Qed.

(** The cases in which the party count is as documented. *)
Lemma aantal_partijen_documented_cases self latitude longitude timestamp env :
  (forall incident,
      truthy incident = true -> icon_category_of incident = Some 1 ->
      (engineer self latitude longitude timestamp (Some incident) env
      ).(aantal_partijen) = 2)
  /\ (forall incident code,
        truthy incident = true -> icon_category_of incident = Some code ->
        code <> 1 ->
        (engineer self latitude longitude timestamp (Some incident) env
        ).(aantal_partijen) = 1)
  /\ (engineer self latitude longitude timestamp (@None (Incident num)) env
     ).(aantal_partijen) = 2.
Proof.
  split; [| split].
  - intros incident Ht Hc. rewrite aantal_partijen_engineered, Ht.
    unfold _estimate_parties. fold (icon_category_of incident). rewrite Hc.
    reflexivity.
  - intros incident code Ht Hc Hne. rewrite aantal_partijen_engineered, Ht.
    unfold _estimate_parties. fold (icon_category_of incident). rewrite Hc.
    rewrite bool_decide_eq_false_2; [reflexivity |]. congruence.
  - apply aantal_partijen_engineered.
Qed.

(** An absent category code is treated like a code other than 1. *)
Lemma absent_code_one_party self latitude longitude timestamp env incident :
  truthy incident = true -> icon_category_of incident = None ->
  (engineer self latitude longitude timestamp (Some incident) env
  ).(aantal_partijen) = 1.
Proof.
  intros Ht Hc. rewrite aantal_partijen_engineered, Ht.
  unfold _estimate_parties. fold (icon_category_of incident). rewrite Hc.
  reflexivity.
Qed.

End EngineFacts.

(** C8, at the input where it fails: for the incident [{'properties': {}}],
    whose properties bag carries no category code, [engineer_features] sets
    aantal_partijen to 1, not to the default 2. *)
Theorem absent_code_counts_one_party
    (format_3f format_4f : Q -> string)
    (fromisoformat : string -> option Temporal.datetime)
    (self : Engine.CrashScopeFeatureEngine) (latitude longitude : Q)
    (timestamp : option string) (env : Engine.Env) :
  Incidents.icon_category_of Samples.incident_without_code = None
  /\ (fst (Engine.engineer_features format_3f format_4f fromisoformat self
             latitude longitude timestamp
             (Some Samples.incident_without_code) env)).(aantal_partijen) = 1.
Proof.
  split; [reflexivity |].
  apply absent_code_one_party; reflexivity.
Qed.

(** * Further properties of the cache manager *)

Section CacheMore.
Import Cache.
Context {V : Type}.
Implicit Types (self : CacheManager V) (key other : string) (timeout : option Z).
Implicit Types (m : gmap string (Q * V)).

Lemma with_cache_same self : with_cache self self.(_cache) = self.
Proof. destruct self. reflexivity. Qed.

Lemma filter_none {A} (p : A -> bool) (l : list A) :
  (forall x, x ∈ l -> p x = false) -> List.filter p l = [].
Proof.
  induction l as [| x l IH]; intros H; cbn; [reflexivity |].
  rewrite (H x) by left. apply IH. intros y Hy. apply H. right. exact Hy.
Qed.

Lemma NoDup_map_fst_filter {A B} (p : A * B -> bool) (l : list (A * B)) :
  NoDup (List.map fst l) -> NoDup (List.map fst (List.filter p l)).
Proof.
  induction l as [| x l IH]; cbn; intros Hnd; [constructor |].
  apply NoDup_cons in Hnd as [Hx Hnd].
  destruct (p x); cbn; [| apply IH; exact Hnd].
  apply NoDup_cons. split; [| apply IH; exact Hnd].
  intros Hin. apply Hx.
  apply list_elem_of_In, in_map_iff in Hin as (y & Hy & Hin).
  apply filter_In in Hin as [Hin _].
  apply list_elem_of_In, in_map_iff. exists y. split; [exact Hy | exact Hin].
Qed.

Lemma size_foldl_delete m (keys : list string) :
  NoDup keys -> (forall k, k ∈ keys -> is_Some (m !! k)) ->
  (size (foldl (fun m k => delete k m) m keys) + length keys = size m)%nat.
Proof.
  revert m. induction keys as [| k keys IH]; intros m Hnd Hin; cbn.
  - lia.
  - apply NoDup_cons in Hnd as [Hk Hnd].
    assert (is_Some (m !! k)) as Hsome by (apply Hin; left).
    assert (forall k', k' ∈ keys -> is_Some (delete k m !! k')) as Hin'.
    { intros k' Hk'. rewrite lookup_delete_ne by (intros ->; contradiction).
      apply Hin. right. exact Hk'. }
    pose proof (IH (delete k m) Hnd Hin') as Hrec.
    rewrite map_size_delete_Some in Hrec by exact Hsome.
    destruct Hsome as [x Hx].
    assert (size m <> 0%nat) by (apply map_size_ne_0_lookup_2 with k; eauto).
    lia.
Qed.


(** X2. [get] and [set] on one key leave every other key's entry, and the
    configured default timeout, as they were. *)
Theorem get_set_touch_one_key self key other timeout now value :
  other <> key ->
  (snd (get self key timeout now)).(_cache) !! other = self.(_cache) !! other
  /\ (set self key value now).(_cache) !! other = self.(_cache) !! other
  /\ (snd (get self key timeout now)).(default_timeout) = self.(default_timeout)
  /\ (set self key value now).(default_timeout) = self.(default_timeout).
Proof.
  intros Hne. unfold get, set.
  destruct (self.(_cache) !! key) as [[cache_time v] |]; cbn.
  - destruct (expired now cache_time (effective_timeout self timeout)); cbn;
      repeat split; try reflexivity.
    + apply lookup_delete_ne. congruence.
    + apply lookup_insert_ne. congruence.
    + apply lookup_insert_ne. congruence.
  - repeat split. apply lookup_insert_ne. congruence.
Qed.


(** X4. The number returned by [cleanup_expired] is the number of entries
    by which the map shrank. *)
Theorem cleanup_count_is_shrinkage self timeout now :
  fst (cleanup_expired self timeout now)
  = Z.of_nat (size self.(_cache))
    - Z.of_nat (size (snd (cleanup_expired self timeout now)).(_cache)).
Proof.
  unfold cleanup_expired. cbn [fst snd _cache with_cache].
  set (keys := List.map fst (List.filter _ (map_to_list self.(_cache)))).
  enough (size (foldl (fun m k => delete k m) self.(_cache) keys) + length keys
          = size self.(_cache))%nat by lia.
  apply size_foldl_delete.
  - apply NoDup_map_fst_filter. apply NoDup_fst_map_to_list.
  - intros k Hk. apply expired_key_iff in Hk as (t & v & Hk & _). eauto.
Qed.

(** X5. Sweeping twice at the same instant with the same timeout: the
    second sweep removes nothing and reports 0. *)
Theorem cleanup_twice self timeout now :
  let swept := snd (cleanup_expired self timeout now) in
  cleanup_expired swept timeout now = (0, swept).
Proof.
  cbn zeta.
  set (swept := snd (cleanup_expired self timeout now)).
  assert (effective_timeout swept timeout = effective_timeout self timeout) as Heff
    by reflexivity.
  unfold cleanup_expired at 1. cbn zeta. rewrite Heff.
  rewrite filter_none.
  - cbn. rewrite with_cache_same. reflexivity.
  - intros [k [t v]] Hin. apply elem_of_map_to_list in Hin.
    unfold swept in Hin. rewrite cleanup_expired_lookup in Hin.
    destruct (self.(_cache) !! k) as [[t' v'] |]; [| discriminate].
    destruct (expired now t' (effective_timeout self timeout)) eqn:He;
      [discriminate |].
    injection Hin as -> ->. exact He.
Qed.

(** X6. A sweep does not change what a read at the same instant with the
    same timeout returns. *)
Theorem get_after_cleanup self key timeout now :
  fst (get (snd (cleanup_expired self timeout now)) key timeout now)
  = fst (get self key timeout now).
Proof.
  set (swept := snd (cleanup_expired self timeout now)).
  assert (effective_timeout swept timeout = effective_timeout self timeout) as Heff
    by reflexivity.
  unfold get. rewrite Heff. unfold swept. rewrite cleanup_expired_lookup.
  destruct (self.(_cache) !! key) as [[t v] |]; [| reflexivity].
  cbn zeta.
  destruct (expired now t (effective_timeout self timeout)) eqn:He;
    [reflexivity |].
  rewrite He. reflexivity.
Qed.

(** X7. Freshness is monotone in time: a value that a read returns at some
    instant is returned, with the manager unchanged, by a read at any
    earlier instant. *)
Theorem get_earlier self key timeout now now' value :
  fst (get self key timeout now) = Some value ->
  (now' <= now)%Q ->
  get self key timeout now' = (Some value, self).
Proof.
  intros Hget Hle. unfold get in *.
  destruct (self.(_cache) !! key) as [[t v] |]; [| discriminate].
  cbn zeta in *.
  destruct (expired now t (effective_timeout self timeout)) eqn:He;
    cbn in Hget; [discriminate |].
  injection Hget as ->.
  apply expired_false in He.
  assert (expired now' t (effective_timeout self timeout) = false) as ->
    by (apply expired_false; lra).
  reflexivity.
Qed.

End CacheMore.

(** Reading or overwriting key "k" leaves the absent key "j" absent. *)
Lemma get_set_touch_one_key_witness :
  (snd (Cache.get Samples.one_entry_cache "k" None 1000)).(Cache._cache) !! "j"
  = Samples.one_entry_cache.(Cache._cache) !! "j"
  /\ (Cache.set Samples.one_entry_cache "k" "w" 1000).(Cache._cache) !! "j"
     = Samples.one_entry_cache.(Cache._cache) !! "j".
Proof.
  destruct (get_set_touch_one_key Samples.one_entry_cache "k" "j" None 1000 "w")
    as (H1 & H2 & _).
  - discriminate.
  - split; [exact H1 | exact H2].
Defined.

(** The entry stored at time 100 is served at time 500, hence at time 200. *)
Lemma get_earlier_witness :
  Cache.get Samples.one_entry_cache "k" None 200
  = (Some "v", Samples.one_entry_cache).
Proof.
  apply (get_earlier Samples.one_entry_cache "k" None 500 200 "v").
  - reflexivity.
  - discriminate.
Defined.

(** * Further properties of coordinate extraction and de-duplication *)

Section IncidentMore.
Import Incidents.
Context {num : Type} `{EqDecision num}.
Implicit Types (incident a b : Incident num) (key : IncidentKey num).
Implicit Types (d unique : list (IncidentKey num * Incident num)).
Implicit Types (incidents : list (Incident num)).

Local Abbreviation entry i := (_generate_incident_key i, i).

(** X8. [extract_coordinates] yields the pair of numbers (lat, lon)
    exactly for a Point whose coordinate list starts with lon, lat and for
    a LineString whose first vertex starts with lon, lat. *)
Theorem extraction_of_numbers incident (lat lon : num) :
  extract_coordinates incident = Some (VNum lat, VNum lon)
  <-> exists g,
        incident.(geometry) = Some g
        /\ ((g.(geometry_type) = Some "Point"
             /\ exists more,
                  g.(coordinates) = Some (Position (lon :: lat :: more)))
            \/ (g.(geometry_type) = Some "LineString"
                /\ exists more vertices,
                     g.(coordinates)
                     = Some (Positions ((lon :: lat :: more) :: vertices)))).
Proof.
  unfold extract_coordinates. split.
  - destruct (geometry incident) as [g |] eqn:Hg; [| discriminate].
    destruct (coordinates g) as [coords |] eqn:Hc; [| discriminate].
    destruct (geometry_type g) as [ty |] eqn:Ht; [| discriminate].
    destruct (String.eqb_spec ty "Point") as [-> | Hp].
    + intros Hx. exists g. split; [reflexivity |]. left. split; [exact Ht |].
      destruct coords as [[| x0 [| x1 more]] | [| p0 [| p1 more]]];
        cbn in Hx; try discriminate.
      injection Hx as -> ->. eauto.
    + destruct (String.eqb_spec ty "LineString") as [-> | Hl]; [| discriminate].
      intros Hx. exists g. split; [reflexivity |]. right. split; [exact Ht |].
      destruct coords as [[| x0 xs] | [| [| x0 [| x1 more]] vertices]];
        cbn in Hx; try discriminate.
      injection Hx as -> ->. eauto.
  - intros (g & -> & [(-> & more & ->) | (-> & more & vertices & ->)]);
      reflexivity.
Qed.

(** X9. Keys do not record the kind of geometry: a position and a
    line made of that single position, with the same category code, get the
    same key, so the second of two such incidents is dropped. *)
Theorem key_ignores_geometry_kind a b (xs : list num) :
  xs <> [] ->
  coords_of a = Position xs -> coords_of b = Positions [xs] ->
  icon_category_of a = icon_category_of b ->
  _generate_incident_key a = _generate_incident_key b
  /\ _deduplicate_incidents [a; b] = [entry a].
Proof.
  intros Hne Ha Hb Hi.
  assert (_generate_incident_key a = _generate_incident_key b) as Hkey.
  { unfold _generate_incident_key. rewrite Ha, Hb, Hi.
    destruct xs; [contradiction | reflexivity]. }
  split; [exact Hkey |].
  unfold _deduplicate_incidents.
  assert (has_key (_generate_incident_key a) [] = false) as Hfresh
    by (apply has_key_false; apply not_elem_of_nil).
  assert (has_key (_generate_incident_key b) ([] ++ [entry a]) = true) as Hseen.
  { apply has_key_true. rewrite <- Hkey. apply list_elem_of_singleton.
    reflexivity. }
  cbn [dedup_loop]. rewrite Hfresh, Hseen. reflexivity.
Qed.

(** X10. Among incidents of one geometry kind the key is faithful: two
    positions, or two lists of positions, with equal keys have equal
    coordinates and equal category codes. *)
Theorem key_separates_same_kind a b :
  _generate_incident_key a = _generate_incident_key b ->
  icon_category_of a = icon_category_of b
  /\ (forall xs ys,
        coords_of a = Position xs -> coords_of b = Position ys -> xs = ys)
  /\ (forall ps qs,
        coords_of a = Positions ps -> coords_of b = Positions qs -> ps = qs).
Proof.
  unfold _generate_incident_key. intros Hkey.
  injection Hkey as Hc Hi. split; [exact Hi |]. split.
  - intros xs ys Ha Hb. rewrite Ha, Hb in Hc.
    destruct xs, ys; try discriminate; [reflexivity |].
    injection Hc as -> ->. reflexivity.
  - intros ps qs Ha Hb. rewrite Ha, Hb in Hc. exact Hc.
Qed.

Lemma dedup_loop_distinct incidents d :
  NoDup (d.*1 ++ List.map _generate_incident_key incidents) ->
  dedup_loop d incidents = d ++ List.map (fun i => entry i) incidents.
Proof.
  revert d. induction incidents as [| i l IH]; intros d Hnd; cbn.
  - rewrite app_nil_r. reflexivity.
  - cbn in Hnd.
    assert (has_key (_generate_incident_key i) d = false) as ->.
    { apply has_key_false. apply NoDup_app in Hnd as (_ & Hdisj & _).
      intros Hin. apply (Hdisj _ Hin). left. }
    rewrite IH.
    + rewrite <- app_assoc. reflexivity.
    + rewrite fmap_app, <- app_assoc. exact Hnd.
Qed.

Lemma dedup_loop_entries incidents d :
  (forall k v, (k, v) ∈ d -> k = _generate_incident_key v) ->
  forall k v, (k, v) ∈ dedup_loop d incidents -> k = _generate_incident_key v.
Proof.
  revert d. induction incidents as [| i l IH]; intros d Hd; cbn; [exact Hd |].
  destruct (has_key _ d); apply IH; [exact Hd |].
  intros k v [Hin | Hin]%elem_of_app; [apply Hd; exact Hin |].
  apply list_elem_of_singleton in Hin. injection Hin as -> ->. reflexivity.
Qed.

Lemma entries_of_values d :
  (forall k v, (k, v) ∈ d -> k = _generate_incident_key v) ->
  List.map (fun i => entry i) d.*2 = d
  /\ List.map _generate_incident_key d.*2 = d.*1.
Proof.
  induction d as [| [k v] d IH]; intros Hd; cbn; [split; reflexivity |].
  destruct IH as [IH1 IH2].
  { intros k' v' Hin. apply Hd. right. exact Hin. }
  rewrite IH1, IH2, <- (Hd k v) by left. split; reflexivity.
Qed.

(** X11. De-duplication is idempotent: running it again on the incidents
    it kept (the values of the dictionary, in order) returns the same
    dictionary. *)
Theorem deduplication_idempotent incidents :
  _deduplicate_incidents (_deduplicate_incidents incidents).*2
  = _deduplicate_incidents incidents.
Proof.
  set (unique := _deduplicate_incidents incidents).
  assert (forall k v, (k, v) ∈ unique -> k = _generate_incident_key v) as Hent.
  { apply dedup_loop_entries. intros k v Hin. apply not_elem_of_nil in Hin.
    contradiction. }
  destruct (entries_of_values unique Hent) as [Hmap Hkeys].
  unfold _deduplicate_incidents at 1. rewrite dedup_loop_distinct.
  - cbn. exact Hmap.
  - cbn. rewrite Hkeys. apply dedup_loop_NoDup. constructor.
Qed.

(** X12. Nothing is invented and no event is lost: the result is never
    longer than the input, every stored incident is an input incident filed
    under its own key, every input incident's key is present, and when the
    input keys are pairwise distinct every incident is kept, in order. *)
Theorem deduplication_covers_input incidents :
  (length (_deduplicate_incidents incidents) <= length incidents)%nat
  /\ (forall key incident,
        (key, incident) ∈ _deduplicate_incidents incidents ->
        incident ∈ incidents /\ key = _generate_incident_key incident)
  /\ (forall incident,
        incident ∈ incidents ->
        _generate_incident_key incident ∈ (_deduplicate_incidents incidents).*1)
  /\ (NoDup (List.map _generate_incident_key incidents) ->
      _deduplicate_incidents incidents = List.map (fun i => entry i) incidents).
Proof.
  pose proof (dedup_loop_sublist incidents []) as Hsub. cbn in Hsub.
  unfold _deduplicate_incidents. split; [| split; [| split]].
  - apply sublist_length in Hsub. rewrite length_map in Hsub. exact Hsub.
  - intros key incident Hin.
    assert ((key, incident) ∈ List.map (fun i => entry i) incidents) as Hin'
      by (eapply elem_of_sublist; [exact Hin | exact Hsub]).
    apply list_elem_of_In, in_map_iff in Hin' as (i & E & Hi).
    injection E as <- ->. split; [| reflexivity].
    apply list_elem_of_In. exact Hi.
  - intros incident Hin. apply dedup_loop_records. exact Hin.
  - intros Hnd. apply (dedup_loop_distinct incidents []). exact Hnd.
Qed.

Lemma dedup_loop_extends incidents d : d `prefix_of` dedup_loop d incidents.
Proof.
  revert d. induction incidents as [| i l IH]; intros d; cbn; [reflexivity |].
  destruct (has_key _ d); [apply IH |].
  etransitivity; [| apply IH]. apply prefix_app_r. reflexivity.
Qed.

(** X13. De-duplication can be run incrementally: the result for a longer
    input starts with the result for its beginning, and processing the
    rest continues from that dictionary. *)
Theorem deduplication_incremental incidents incidents' :
  _deduplicate_incidents incidents
    `prefix_of` _deduplicate_incidents (incidents ++ incidents')
  /\ _deduplicate_incidents (incidents ++ incidents')
     = dedup_loop (_deduplicate_incidents incidents) incidents'.
Proof.
  unfold _deduplicate_incidents. rewrite dedup_loop_app. split.
  - apply dedup_loop_extends.
  - reflexivity.
Qed.

End IncidentMore.

(** A Point and a one-vertex LineString at the same place collapse; two
    Points with the same key have the same category. *)
Lemma key_ignores_geometry_kind_witness :
  Incidents._deduplicate_incidents
    [ Samples.accident "Point" (Incidents.Position [4; 52]) 3;
      Samples.accident "LineString" (Incidents.Positions [[4; 52]]) 7 ]
  = [ (([[4; 52]], Some 1),
       Samples.accident "Point" (Incidents.Position [4; 52]) 3) ].
Proof.
  apply (key_ignores_geometry_kind
           (Samples.accident "Point" (Incidents.Position [4; 52]) 3)
           (Samples.accident "LineString" (Incidents.Positions [[4; 52]]) 7)
           [4; 52]);
    (discriminate || reflexivity).
Defined.

Lemma key_separates_same_kind_witness :
  Incidents.icon_category_of
    (Samples.accident "Point" (Incidents.Position [4; 52]) 3)
  = Incidents.icon_category_of
      (Samples.accident "Point" (Incidents.Position [4; 52]) 7).
Proof.
  apply (key_separates_same_kind
           (Samples.accident "Point" (Incidents.Position [4; 52]) 3)
           (Samples.accident "Point" (Incidents.Position [4; 52]) 7)).
  reflexivity.
Defined.

(** * Further properties of risk scoring and regions *)

Section RiskMore.
Import Risk Notions.

Lemma speed_factor_monotone f g :
  f.(road).(speed_limit) <= g.(road).(speed_limit) ->
  speed_factor f <= speed_factor g.
Proof.
  intros Hle. unfold speed_factor.
  destruct (Z.gtb_spec (speed_limit (road f)) 100);
    destruct (Z.gtb_spec (speed_limit (road f)) 70);
    destruct (Z.gtb_spec (speed_limit (road f)) 50);
    destruct (Z.gtb_spec (speed_limit (road g)) 100);
    destruct (Z.gtb_spec (speed_limit (road g)) 70);
    destruct (Z.gtb_spec (speed_limit (road g)) 50); lia.
Qed.

(** X14. The score is monotone in the speed limit: of two records that
    differ only in the speed limit, the one with the higher limit never
    scores lower. *)
Theorem score_monotone_in_speed f g :
  same_but_speed f g ->
  f.(road).(speed_limit) <= g.(road).(speed_limit) ->
  _calculate_risk_score f <= _calculate_risk_score g.
Proof.
  intros (Hw & Ht & Hn & Hr & Ha & Hl & Hp) Hle.
  pose proof (speed_factor_monotone f g Hle) as Hs.
  assert (weather_factor f = weather_factor g) as Ew
    by (unfold weather_factor; rewrite Hw, !(Qltb_compat _ _ _ Ht); reflexivity).
  assert (time_factor f = time_factor g) as Et
    by (unfold time_factor; rewrite Hn, Hr; reflexivity).
  assert (location_factor f = location_factor g) as El
    by (unfold location_factor; rewrite Ha, Hl; reflexivity).
  assert (parties_factor f = parties_factor g) as Ep
    by (unfold parties_factor; rewrite Hp; reflexivity).
  unfold _calculate_risk_score, raw_score. rewrite Ew, Et, El, Ep. lia.
Qed.

(** X15. How the labels relate to the points of the score: the speed
    label is Low exactly when the speed factor adds nothing, a High speed
    label means at least two speed points, three speed points mean a High
    label, and a Medium location label means at least one location point;
    an unlit road in an urban area adds a location point without raising
    the label. *)
Theorem labels_and_points f :
  let labels := risk_factors f in
  (labels.(speed_risk) = "Low" <-> speed_factor f = 0)
  /\ (labels.(speed_risk) = "High" -> 2 <= speed_factor f)
  /\ (speed_factor f = 3 -> labels.(speed_risk) = "High")
  /\ (labels.(location_risk) = "Medium" -> 1 <= location_factor f)
  /\ (f.(area_type) <> "Buiten" -> f.(road).(lit) = "no" ->
      labels.(location_risk) = "Low" /\ location_factor f = 1).
Proof.
  cbn zeta. unfold risk_factors, speed_factor, location_factor.
  cbn [speed_risk location_risk].
  repeat match goal with |- _ /\ _ => split end.
  - destruct (Z.gtb_spec (speed_limit (road f)) 100);
      destruct (Z.gtb_spec (speed_limit (road f)) 80);
      destruct (Z.gtb_spec (speed_limit (road f)) 70);
      destruct (Z.gtb_spec (speed_limit (road f)) 50);
      split; intros; (discriminate || lia || reflexivity).
  - destruct (Z.gtb_spec (speed_limit (road f)) 100);
      destruct (Z.gtb_spec (speed_limit (road f)) 80);
      destruct (Z.gtb_spec (speed_limit (road f)) 70);
      destruct (Z.gtb_spec (speed_limit (road f)) 50);
      intros; (discriminate || lia).
  - destruct (Z.gtb_spec (speed_limit (road f)) 100);
      destruct (Z.gtb_spec (speed_limit (road f)) 80);
      destruct (Z.gtb_spec (speed_limit (road f)) 70);
      destruct (Z.gtb_spec (speed_limit (road f)) 50);
      intros; (discriminate || lia || reflexivity).
  - destruct (String.eqb (area_type f) "Buiten"); [| discriminate].
    intros _. destruct (_ || _); lia.
  - intros Ha ->. apply String.eqb_neq in Ha. rewrite Ha. split; reflexivity.
Qed.

(** X16. How many factors a level needs: a High level requires at least
    three contributing factors, at most one contributing factor always
    gives Low, and five contributing factors never give Low. *)
Theorem level_needs_factors f :
  let level := risk_level (_calculate_risk_score f) in
  (level = "High" -> 3 <= contributing_factors f)
  /\ (contributing_factors f <= 1 -> level = "Low")
  /\ (contributing_factors f = 5 -> level <> "Low").
Proof.
  cbn zeta. unfold risk_level, _calculate_risk_score, raw_score,
    contributing_factors.
  pose proof (speed_factor_range f). pose proof (weather_factor_range f).
  pose proof (time_factor_range f). pose proof (location_factor_range f).
  pose proof (parties_factor_range f).
  destruct (Z.eqb_spec (speed_factor f) 0);
    destruct (Z.eqb_spec (weather_factor f) 0);
    destruct (Z.eqb_spec (time_factor f) 0);
    destruct (Z.eqb_spec (location_factor f) 0);
    destruct (Z.eqb_spec (parties_factor f) 0);
    repeat match goal with |- _ /\ _ => split end;
    match goal with
    | |- context [?a >=? 7] =>
        destruct (Z.geb_spec a 7); destruct (Z.geb_spec a 4)
    end;
    intros; (discriminate || lia || reflexivity).
Qed.

End RiskMore.

(** Lowering the limit of the maximal record from 130 to 60 does not raise
    its score. *)
Lemma score_monotone_in_speed_witness :
  Risk._calculate_risk_score Samples.max_risk_at_60
  <= Risk._calculate_risk_score Risk.max_risk_record.
Proof.
  apply (score_monotone_in_speed Samples.max_risk_at_60 Risk.max_risk_record).
  - unfold Notions.same_but_speed. repeat split; reflexivity.
  - discriminate.
Defined.

Section RegionFacts.
Import App Notions.

Lemma box_test_iff lat lon south north west east :
  Qleb south lat && Qleb lat north && (Qleb west lon && Qleb lon east) = true
  <-> in_box lat lon south north west east.
Proof.
  unfold in_box, Qleb. rewrite !andb_true_iff, !Qle_bool_iff. tauto.
Qed.

Lemma box_test_not lat lon south north west east :
  Qleb south lat && Qleb lat north && (Qleb west lon && Qleb lon east) = false
  <-> ~ in_box lat lon south north west east.
Proof.
  rewrite <- box_test_iff. destruct (_ && _); split; congruence.
Qed.

(** The decision list of [_identify_region], case by case. *)
Lemma region_cases lat lon :
  let r := _identify_region lat lon in
  let amsterdam := in_box lat lon f52_3 f52_4 f4_8 f5_0 in
  let den_haag := in_box lat lon f52_0 f52_1 f4_2 f4_4 in
  let rotterdam := in_box lat lon f51_9 f52_0 f4_4 f4_6 in
  let utrecht := in_box lat lon f52_1 f52_2 f5_1 f5_2 in
  (amsterdam /\ r = "Amsterdam")
  \/ (~ amsterdam /\ den_haag /\ r = "Den Haag")
  \/ (~ amsterdam /\ ~ den_haag /\ rotterdam /\ r = "Rotterdam")
  \/ (~ amsterdam /\ ~ den_haag /\ ~ rotterdam /\ utrecht /\ r = "Utrecht")
  \/ (~ amsterdam /\ ~ den_haag /\ ~ rotterdam /\ ~ utrecht
      /\ ((f53_0 < lat)%Q /\ r = "Noord-Nederland"
          \/ (lat <= f53_0)%Q /\ (lat < f51_5)%Q /\ r = "Zuid-Nederland"
          \/ (lat <= f53_0)%Q /\ (f51_5 <= lat)%Q /\ r = "Midden-Nederland")).
Proof.
  cbn zeta. unfold _identify_region.
  destruct (_ && _ && (_ && _)) eqn:EA.
  { apply box_test_iff in EA. left. split; [exact EA | reflexivity]. }
  apply box_test_not in EA. right.
  destruct (_ && _ && (_ && _)) eqn:ED.
  { apply box_test_iff in ED. left. repeat (split; [assumption |]). reflexivity. }
  apply box_test_not in ED. right.
  destruct (_ && _ && (_ && _)) eqn:ER.
  { apply box_test_iff in ER. left. repeat (split; [assumption |]). reflexivity. }
  apply box_test_not in ER. right.
  destruct (_ && _ && (_ && _)) eqn:EU.
  { apply box_test_iff in EU. left. repeat (split; [assumption |]). reflexivity. }
  apply box_test_not in EU. right.
  do 4 (split; [assumption |]).
  destruct (Qgtb lat f53_0) eqn:EN.
  { apply Qgtb_true in EN. left. split; [exact EN | reflexivity]. }
  apply Qgtb_false in EN. right.
  destruct (Qltb lat f51_5) eqn:EZ.
  { apply Qltb_true in EZ. left. repeat (split; [assumption |]). reflexivity. }
  right. split; [exact EN |]. split; [| reflexivity].
  destruct (Qlt_le_dec lat f51_5) as [Hlt | Hle]; [| exact Hle].
  apply Qltb_true in Hlt. congruence.
Qed.

(** X17. Regions: the four city boxes are honoured as written, except
    that the one point shared by the Den Haag and Rotterdam boxes
    (latitude 52.0, longitude 4.4) counts as Den Haag; no box reaches
    beyond latitude 53.0 or below 51.5, so the answer is Noord-Nederland
    exactly above 53.0 and Zuid-Nederland exactly below 51.5. *)
Theorem region_characterisation lat lon :
  let r := _identify_region lat lon in
  (r = "Amsterdam" <-> in_box lat lon f52_3 f52_4 f4_8 f5_0)
  /\ (r = "Den Haag" <-> in_box lat lon f52_0 f52_1 f4_2 f4_4)
  /\ (r = "Rotterdam"
      <-> in_box lat lon f51_9 f52_0 f4_4 f4_6
          /\ ~ (lat == f52_0 /\ lon == f4_4)%Q)
  /\ (r = "Utrecht" <-> in_box lat lon f52_1 f52_2 f5_1 f5_2)
  /\ (r = "Noord-Nederland" <-> (f53_0 < lat)%Q)
  /\ (r = "Zuid-Nederland" <-> (lat < f51_5)%Q).
Proof.
  cbn zeta. pose proof (region_cases lat lon) as H. cbn zeta in H.
  unfold in_box in *.
  unfold f52_3, f52_4, f4_8, f5_0, f52_0, f52_1, f4_2, f4_4, f51_9, f4_6,
    f52_2, f5_1, f5_2, f53_0, f51_5 in *.
  destruct H as [(HA & ->) | [(HA & HD & ->) | [(HA & HD & HR & ->)
    | [(HA & HD & HR & HU & ->) | (HA & HD & HR & HU & HN)]]]].
  1-4: repeat match goal with |- _ /\ _ => split end;
       (split; [intros E; first [discriminate E | clear E; lra]
               | intros E; first [reflexivity | exfalso; lra]]).
  destruct HN as [(HN & ->) | [(HN & HZ & ->) | (HN & HZ & ->)]];
    repeat match goal with |- _ /\ _ => split end;
    (split; [intros E; first [discriminate E | clear E; lra]
            | intros E; first [reflexivity | exfalso; lra]]).
Qed.

End RegionFacts.

(** * Further properties of the extractors *)

Section PyMore.
Import Notions.

(** [replace] returns its subject unchanged when the text to replace
    does not occur in it. *)
Lemma replace_without_occurrence (s old new : string) :
  occurs old s = false -> Py.replace s old new = s.
Proof.
  unfold Py.replace. induction s as [| c s IH]; intros Hocc; [reflexivity |].
  cbn [occurs] in Hocc. apply orb_false_iff in Hocc as [Hpre Hrest].
  cbn [Py.replace_from]. rewrite Hpre, (IH Hrest). reflexivity.
Qed.

End PyMore.

Example replace_keeps_plain_number : Py.replace "50" "mph" "" = "50".
Proof. apply replace_without_occurrence. reflexivity. Qed.

Lemma get_default_timeout {V} (c : Cache.CacheManager V) key timeout now :
  (snd (Cache.get c key timeout now)).(Cache.default_timeout)
  = c.(Cache.default_timeout).
Proof.
  unfold Cache.get. destruct (Cache._cache c !! key) as [[t v] |]; [| reflexivity].
  cbn zeta. destruct (Cache.expired _ _ _); reflexivity.
Qed.

Lemma get_miss_map {V} (c : Cache.CacheManager V) key timeout now :
  fst (Cache.get c key timeout now) = None ->
  (snd (Cache.get c key timeout now)).(Cache._cache)
  = delete key c.(Cache._cache).
Proof.
  unfold Cache.get. destruct (Cache._cache c !! key) as [[t v] |] eqn:Hk.
  - cbn zeta. destruct (Cache.expired _ _ _); cbn; [reflexivity | discriminate].
  - intros _. cbn. symmetry. apply delete_id. exact Hk.
Qed.

Section WeatherMore.
Import Weather.
Context (format_4f : Q -> string).
Implicit Types (self : WeatherFeatureExtractor) (reply : HttpReply WeatherData).

(** X18. A weather lookup that ends in a transport error, a non-success
    status or an undecodable body returns the default profile, stores
    nothing (the cache map afterwards is the old one without the key), and
    the next lookup asks the service again. *)
Theorem weather_failure_leaves_cache self lat lon now_get now_set reply :
  fst (Cache.get self.(cache) (cache_key format_4f lat lon) None now_get) = None ->
  upstream_failure reply ->
  let out := extract_features format_4f self lat lon now_get now_set reply in
  fst (fst out) = _get_default_weather
  /\ snd out = true
  /\ (snd (fst out)).(cache).(Cache._cache)
     = delete (cache_key format_4f lat lon) self.(cache).(Cache._cache)
  /\ forall now_get' now_set' reply',
       snd (extract_features format_4f (snd (fst out)) lat lon
              now_get' now_set' reply') = true.
Proof.
  intros Hmiss Hfail. cbn zeta.
  pose proof (upstream_failure_not_cached format_4f self lat lon now_get
                now_set reply Hmiss Hfail) as (H1 & H2 & H3 & H4).
  split; [exact H1 |]. split; [exact H2 |]. split; [| exact H4].
  pose proof (get_miss_map _ _ _ _ Hmiss) as Hmap.
  revert Hmap. unfold extract_features.
  destruct (Cache.get _ _ _ _) as [cached c1]. cbn in Hmiss. subst cached.
  cbn [snd]. intros Hmap.
  destruct reply as [| status body]; [exact Hmap |]. cbn in Hfail.
  destruct (Z.eqb_spec status 200) as [-> | _]; [| exact Hmap].
  destruct Hfail as [Hne | ->]; [contradiction | exact Hmap].
Qed.

(** X19. A decoded success answer is processed, stored, and served again:
    a later lookup whose coordinates give the same cache key, made within
    the default timeout of the store time, returns the same features from
    the cache without asking the service. *)
Theorem weather_served_from_cache self lat lon lat' lon' now_get now_set
    weather_data now_get' now_set' reply' :
  fst (Cache.get self.(cache) (cache_key format_4f lat lon) None now_get) = None ->
  cache_key format_4f lat' lon' = cache_key format_4f lat lon ->
  (now_get' - now_set <= inject_Z self.(cache).(Cache.default_timeout))%Q ->
  let out := extract_features format_4f self lat lon now_get now_set
               (Response 200 (Some weather_data)) in
  fst (fst out) = _process_weather_data weather_data
  /\ snd out = true
  /\ extract_features format_4f (snd (fst out)) lat' lon' now_get' now_set' reply'
     = (fst (fst out), snd (fst out), false).
Proof.
  intros Hmiss Hkey Hage. cbn zeta.
  pose proof (get_default_timeout self.(cache) (cache_key format_4f lat lon)
                None now_get) as Hdt.
  unfold extract_features at 1 2 3 4 5 6.
  destruct (Cache.get _ _ _ _) as [cached c1]. cbn in Hmiss, Hdt. subst cached.
  cbn [Z.eqb Pos.eqb fst snd]. split; [reflexivity |]. split; [reflexivity |].
  unfold extract_features. rewrite Hkey. cbn [cache].
  rewrite get_after_set; [reflexivity |].
  cbn [Cache.effective_timeout]. rewrite Hdt. exact Hage.
Qed.

End WeatherMore.

Lemma weather_failure_leaves_cache_witness :
  fst (fst (Weather.extract_features Samples.constant_format
              Samples.fresh_weather 52 5 0 0 RequestException))
  = Weather._get_default_weather.
Proof.
  apply (weather_failure_leaves_cache Samples.constant_format
           Samples.fresh_weather 52 5 0 0 RequestException).
  - reflexivity.
  - exact I.
Defined.

Lemma weather_served_from_cache_witness :
  Weather.extract_features Samples.constant_format
    (snd (fst (Weather.extract_features Samples.constant_format
                 Samples.fresh_weather 52 5 0 1
                 (Response 200 (Some Samples.rainy_weather)))))
    52 5 300 301 RequestException
  = (fst (fst (Weather.extract_features Samples.constant_format
                 Samples.fresh_weather 52 5 0 1
                 (Response 200 (Some Samples.rainy_weather)))),
     snd (fst (Weather.extract_features Samples.constant_format
                 Samples.fresh_weather 52 5 0 1
                 (Response 200 (Some Samples.rainy_weather)))),
     false).
Proof.
  apply (weather_served_from_cache Samples.constant_format
           Samples.fresh_weather 52 5 52 5 0 1 Samples.rainy_weather
           300 301 RequestException).
  - reflexivity.
  - reflexivity.
  - discriminate.
Defined.

Section RoadMore.
Import Road Notions.
Implicit Types (tag_map : gmap string string) (features : RoadFeatures).

Lemma apply_maxspeed_lit tag_map features :
  (apply_maxspeed tag_map features).(lit) = features.(lit).
Proof. unfold apply_maxspeed. repeat case_match; reflexivity. Qed.

Lemma apply_highway_lit tag_map features :
  (apply_highway tag_map features).(lit) = features.(lit).
Proof. unfold apply_highway. repeat case_match; reflexivity. Qed.

Lemma apply_lanes_lit tag_map features :
  (apply_lanes tag_map features).(lit) = features.(lit).
Proof. unfold apply_lanes. repeat case_match; reflexivity. Qed.

Lemma apply_surface_lit tag_map features :
  (apply_surface tag_map features).(lit) = features.(lit).
Proof. unfold apply_surface. repeat case_match; reflexivity. Qed.

(** X20. How the speed limit of the first way is resolved: a limit that
    parses to a number other than 50 is returned as parsed; without a
    parsed limit the highway type decides through the table, unknown types
    and ways without a highway tag getting 50; and a tag without the unit
    texts is parsed as it stands. *)
Theorem road_speed_limit_cases road others tag_map :
  road.(tags) = Some tag_map ->
  let result := _process_osm_data {| elements := Some (road :: others) |} in
  let unparsed :=
    tag_map !! "maxspeed" = None
    \/ exists value,
         tag_map !! "maxspeed" = Some value /\ parse_maxspeed value = None in
  (forall value n,
      tag_map !! "maxspeed" = Some value -> parse_maxspeed value = Some n ->
      n <> 50 -> result.(speed_limit) = n)
  /\ (forall highway_type,
        unparsed -> tag_map !! "highway" = Some highway_type ->
        result.(speed_limit) = default 50 (speed_defaults !! highway_type))
  /\ (unparsed -> tag_map !! "highway" = None -> result.(speed_limit) = 50)
  /\ (forall value,
        occurs "mph" value = false -> occurs "kmh" value = false ->
        parse_maxspeed value = Py.int value).
Proof.
  intros Ht. cbn zeta. split; [| split; [| split]].
  - intros value n Hm Hp Hn. eapply parsed_limit_kept; eassumption.
  - intros highway_type Hu Hh. eapply unparsed_limit_from_table; eassumption.
  - intros Hu Hh. rewrite process_speed_limit, Ht. cbn [default from_option id].
    assert (apply_maxspeed tag_map _get_default_road_features
            = _get_default_road_features) as ->.
    { unfold apply_maxspeed. destruct Hu as [-> | (value & -> & ->)]; reflexivity. }
    unfold apply_highway. rewrite Hh. reflexivity.
  - intros value Hmph Hkmh. unfold parse_maxspeed.
    rewrite (replace_without_occurrence value "mph" "" Hmph).
    rewrite (replace_without_occurrence value "kmh" "" Hkmh). reflexivity.
Qed.

(** X21. The lighting field of a processed answer is always one of
    "yes", "no" and "unknown": it is "yes" only for a first way tagged
    lit="yes", and "unknown" only when there is no first way or it has no
    lit tag. *)
Theorem road_lit_normalised (osm_data : OsmData) :
  let result := _process_osm_data osm_data in
  let lit_tag :=
    match osm_data.(elements) with
    | Some (road :: _) => default ∅ road.(tags) !! "lit"
    | _ => None
    end in
  (result.(lit) = "yes" \/ result.(lit) = "no" \/ result.(lit) = "unknown")
  /\ (result.(lit) = "yes" <-> lit_tag = Some "yes")
  /\ (result.(lit) = "unknown" <-> lit_tag = None).
Proof.
  cbn zeta. unfold _process_osm_data.
  destruct (elements osm_data) as [[| road others] |].
  1, 3: split; [right; right; reflexivity |];
        split; split; (discriminate || reflexivity).
  set (tag_map := default ∅ (tags road)).
  unfold apply_lit at 1 2 3 4 5.
  destruct (tag_map !! "lit") as [value |].
  - cbn [lit set_lit]. destruct (String.eqb_spec value "yes") as [-> | Hne].
    + split; [left; reflexivity |]. split; split; (discriminate || reflexivity).
    + split; [right; left; reflexivity |].
      split; split; try discriminate. intros E. congruence.
  - rewrite apply_surface_lit, apply_lanes_lit, apply_highway_lit,
      apply_maxspeed_lit. cbn.
    split; [right; right; reflexivity |].
    split; split; (discriminate || reflexivity).
Qed.

Section Extract.
Context (format_3f : Q -> string).
Implicit Types (self : RoadFeatureExtractor) (reply : HttpReply OsmData).

(** X22. The road extractor and its cache: on a miss a decoded success
    answer (even one without elements) is processed, stored and served to
    a later lookup with the same key within the default timeout, without a
    request; an answer with another status, an undecodable body or a
    transport error gives the default profile, which is not stored. *)
Theorem road_cache_behaviour self lat lon now_get now_set :
  fst (Cache.get self.(cache) (cache_key format_3f lat lon) None now_get) = None ->
  (forall osm_data now_get' now_set' reply',
      (now_get' - now_set <= inject_Z self.(cache).(Cache.default_timeout))%Q ->
      let out := extract_features format_3f self lat lon now_get now_set
                   (Response 200 (Some osm_data)) in
      out = (_process_osm_data osm_data, snd (fst out), true)
      /\ extract_features format_3f (snd (fst out)) lat lon
           now_get' now_set' reply'
         = (_process_osm_data osm_data, snd (fst out), false))
  /\ (forall reply,
        match reply with
        | RequestException => True
        | Response status_code body => status_code <> 200 \/ body = None
        end ->
        let out := extract_features format_3f self lat lon now_get now_set
                     reply in
        fst out = (_get_default_road_features,
                   {| cache := snd (Cache.get self.(cache)
                                      (cache_key format_3f lat lon) None
                                      now_get) |})
        /\ snd out = true
        /\ (snd (fst out)).(cache).(Cache._cache)
           !! cache_key format_3f lat lon = None).
Proof.
  intros Hmiss.
  pose proof (get_default_timeout self.(cache) (cache_key format_3f lat lon)
                None now_get) as Hdt.
  pose proof (get_miss_leaves_key_absent _ _ _ _ Hmiss) as Habsent.
  unfold extract_features.
  destruct (Cache.get _ _ _ _) as [cached c1]. cbn in Hmiss, Hdt, Habsent.
  subst cached. split.
  - intros osm_data now_get' now_set' reply' Hage.
    cbn [Z.eqb Pos.eqb fst snd cache]. split; [reflexivity |].
    rewrite get_after_set; [reflexivity |].
    cbn [Cache.effective_timeout]. rewrite Hdt. exact Hage.
  - intros reply Hfail. cbn zeta.
    destruct reply as [| status body].
    + cbn. repeat split. exact Habsent.
    + destruct (Z.eqb_spec status 200) as [-> | _].
      * destruct Hfail as [Hne | ->]; [contradiction |].
        cbn. repeat split. exact Habsent.
      * cbn. repeat split. exact Habsent.
Qed.

End Extract.

End RoadMore.

Lemma road_speed_limit_cases_witness :
  (Road._process_osm_data
     {| elements := Some [Samples.motorway_element_80] |}).(speed_limit) = 80.
Proof.
  eapply (road_speed_limit_cases Samples.motorway_element_80 []).
  - reflexivity.
  - reflexivity.
  - reflexivity.
  - discriminate.
Defined.

Lemma road_cache_behaviour_witness :
  fst (fst (Road.extract_features Samples.constant_format Samples.fresh_road
              52 5 0 1 (Response 200 (Some Samples.motorway_signed_80))))
  = Road._process_osm_data Samples.motorway_signed_80.
Proof.
  destruct (road_cache_behaviour Samples.constant_format Samples.fresh_road
              52 5 0 1) as [Hok _].
  - reflexivity.
  - destruct (Hok Samples.motorway_signed_80 300%Q 301%Q RequestException)
      as [E _].
    + discriminate.
    + rewrite E. reflexivity.
Defined.

Section TemporalMore.
Import Temporal.
Context (fromisoformat : string -> option datetime).

Lemma rush_hours (h : Z) :
  h ∈ [7; 8; 9; 16; 17; 18; 19]
  <-> h = 7 \/ h = 8 \/ h = 9 \/ h = 16 \/ h = 17 \/ h = 18 \/ h = 19.
Proof. rewrite !elem_of_cons, elem_of_nil. tauto. Qed.

(** X23. The time-of-day fields fit together: a night-time record is in
    the Night period and is never a rush-hour record; the Night period
    contains, besides the night hours, only hour 22; a rush-hour record is
    never in the Night period; and the weekend flag is set exactly from
    weekday 5 on. *)
Theorem time_fields_consistent (timestamp : option string) (now : datetime) :
  let f := extract_features fromisoformat timestamp now in
  (f.(is_night) = true -> f.(time_period) = "Night")
  /\ (f.(time_period) = "Night" -> f.(is_night) = true \/ f.(hour) = 22)
  /\ (f.(is_night) = true -> f.(is_rush_hour) = false)
  /\ (f.(is_rush_hour) = true -> f.(time_period) <> "Night")
  /\ (f.(is_weekend) = true <-> 5 <= f.(day_of_week)).
Proof.
  cbn zeta. unfold extract_features.
  set (dt := match timestamp with Some _ => _ | None => _ end).
  cbn [is_night time_period is_rush_hour hour is_weekend day_of_week].
  unfold _get_time_period. generalize (dt_hour dt) as h. intros h.
  repeat match goal with |- _ /\ _ => split end.
  - rewrite orb_true_iff, Z.ltb_lt, Z.gtb_lt. intros Hn.
    destruct (Z.leb_spec 6 h); destruct (Z.ltb_spec h 12);
      destruct (Z.leb_spec 12 h); destruct (Z.ltb_spec h 18);
      destruct (Z.leb_spec 18 h); destruct (Z.ltb_spec h 22);
      cbn; (reflexivity || lia).
  - rewrite orb_true_iff, Z.ltb_lt, Z.gtb_lt.
    destruct (Z.leb_spec 6 h); destruct (Z.ltb_spec h 12);
      destruct (Z.leb_spec 12 h); destruct (Z.ltb_spec h 18);
      destruct (Z.leb_spec 18 h); destruct (Z.ltb_spec h 22);
      cbn; intros; (discriminate || lia).
  - rewrite orb_true_iff, Z.ltb_lt, Z.gtb_lt. intros Hn.
    apply bool_decide_eq_false. rewrite rush_hours. lia.
  - intros Hr. apply bool_decide_eq_true in Hr. rewrite rush_hours in Hr.
    destruct (Z.leb_spec 6 h); destruct (Z.ltb_spec h 12);
      destruct (Z.leb_spec 12 h); destruct (Z.ltb_spec h 18);
      destruct (Z.leb_spec 18 h); destruct (Z.ltb_spec h 22);
      cbn; (discriminate || lia).
  - destruct (Z.geb_spec (dt_weekday dt) 5); split; intros;
      (discriminate || lia || reflexivity).
Qed.

End TemporalMore.

Section EngineMore.
Import Incidents Engine.
Context {num : Type}.
Context (format_3f format_4f : Q -> string).
Context (fromisoformat : string -> option Temporal.datetime).
Implicit Types (self : CrashScopeFeatureEngine) (env : Env).
Implicit Types (incident_data : option (Incident num)).

Lemma engineer_features_fields self latitude longitude timestamp
    incident_data env :
  let f := fst (engineer_features format_3f format_4f fromisoformat self
                  latitude longitude timestamp incident_data env) in
  f.(temporal)
  = Temporal.extract_features fromisoformat timestamp env.(datetime_now)
  /\ f.(area_type) = Road.classify_area env.(place_reply)
  /\ f.(lat) = latitude /\ f.(lon) = longitude
  /\ f.(lichtgesteldheid)
     = _determine_lighting f.(temporal).(hour) f.(road).(lit).
Proof.
  cbn zeta. unfold engineer_features.
  destruct (Weather.extract_features _ _ _ _ _ _ _) as [[? ?] ?].
  destruct (Road.extract_features _ _ _ _ _ _ _) as [[? ?] ?].
  cbn. repeat split.
Qed.

(** X24. Every engineered record echoes the coordinates it was asked
    for, counts one or two parties, classifies the area as Binnen or Buiten
    (Binnen only when the place query succeeded with at least one element),
    and has a lighting class that fits its own hour and road lighting:
    Daglicht exactly for hours 6 to 20, Duisternis exactly outside those
    hours on a road not tagged lit="yes"; a night-time record is never
    Daglicht. *)
Theorem engineered_record_invariants self latitude longitude timestamp
    incident_data env :
  let f := fst (engineer_features format_3f format_4f fromisoformat self
                  latitude longitude timestamp incident_data env) in
  f.(lat) = latitude /\ f.(lon) = longitude
  /\ (f.(aantal_partijen) = 1 \/ f.(aantal_partijen) = 2)
  /\ (f.(area_type) = "Binnen" \/ f.(area_type) = "Buiten")
  /\ (f.(area_type) = "Binnen" ->
      exists place_data first others,
        env.(place_reply) = Response 200 (Some place_data)
        /\ place_data.(elements) = Some (first :: others))
  /\ (f.(lichtgesteldheid) = "Daglicht"
      <-> 6 <= f.(temporal).(hour) <= 20)
  /\ (f.(lichtgesteldheid) = "Duisternis"
      <-> ~ (6 <= f.(temporal).(hour) <= 20) /\ f.(road).(lit) <> "yes")
  /\ (f.(temporal).(is_night) = true -> f.(lichtgesteldheid) <> "Daglicht").
Proof.
  cbn zeta.
  pose proof (engineer_features_fields self latitude longitude timestamp
                incident_data env) as (Ht & Ha & Hlat & Hlon & Hl).
  cbn zeta in *.
  pose proof (aantal_partijen_engineered format_3f format_4f fromisoformat
                self latitude longitude timestamp incident_data env) as Hp.
  set (f := fst (engineer_features _ _ _ _ _ _ _ _ _)) in *.
  assert (f.(lichtgesteldheid) = "Daglicht" <-> 6 <= f.(temporal).(hour) <= 20)
    as Hday.
  { rewrite Hl. unfold _determine_lighting.
    destruct (Z.leb_spec 6 (hour (temporal f)));
      destruct (Z.leb_spec (hour (temporal f)) 20); cbn;
      try destruct (String.eqb _ _); split; intros;
      (discriminate || lia || reflexivity). }
  split; [exact Hlat |]. split; [exact Hlon |]. split; [| split; [| split]].
  - rewrite Hp. destruct incident_data as [incident |]; [| right; reflexivity].
    destruct (truthy incident); [| right; reflexivity].
    unfold _estimate_parties. destruct (bool_decide _); [right | left]; reflexivity.
  - rewrite Ha. unfold Road.classify_area.
    repeat case_match; (left; reflexivity) || (right; reflexivity).
  - rewrite Ha. unfold Road.classify_area.
    destruct (place_reply env) as [| status [place_data |]]; try discriminate.
    destruct (Z.eqb_spec status 200) as [-> | _]; [| discriminate].
    destruct (elements place_data) as [[| first others] |] eqn:He;
      try discriminate.
    intros _. exists place_data, first, others. split; reflexivity || exact He.
  - split; [exact Hday |]. split.
    + rewrite Hl. unfold _determine_lighting.
      destruct (Z.leb_spec 6 (hour (temporal f)));
        destruct (Z.leb_spec (hour (temporal f)) 20); cbn;
        destruct (String.eqb_spec (lit (road f)) "yes"); split;
        try discriminate; try (intros [? ?]; lia || contradiction);
        try (intros _; split; [lia | assumption]); try reflexivity.
    + intros Hn Hd. apply Hday in Hd. rewrite Ht in Hn, Hd.
      unfold Temporal.extract_features in Hn, Hd. cbn in Hn, Hd.
      apply orb_true_iff in Hn. rewrite Z.ltb_lt, Z.gtb_lt in Hn. lia.
Qed.

End EngineMore.

(** * Properties of the application pipeline *)

Section AppMore.
Import Incidents App Notions.
Context {num : Type}.
Context (str_float format_4f format_3f : Q -> string).
Context (num_value : num -> Q).
Context (fromisoformat : string -> option Temporal.datetime).
Implicit Types (reply_for : nat -> HttpReply (TomTom.IncidentsData num)).
Implicit Types (boxes : list (Q * Q * Q * Q)).
Implicit Types (incident : Incident num).

Lemma append_nonempty (s t : string) (c : ascii) :
  String.eqb (String.append s (String c t)) "" = false.
Proof. destruct s; reflexivity. Qed.

Lemma bbox_str_nonempty box : String.eqb (bbox_str str_float box) "" = false.
Proof. destruct box as [[[a b] c] d]. unfold bbox_str. apply append_nonempty. Qed.

Lemma fetch_incidents_delivered bbox (reply : HttpReply (TomTom.IncidentsData num)) :
  String.eqb bbox "" = false ->
  TomTom.fetch_incidents bbox reply = Some (delivered reply).
Proof.
  intros Hb. unfold TomTom.fetch_incidents, delivered. rewrite Hb.
  destruct reply as [| status body]; [reflexivity |].
  destruct (status =? 200); cbn; [| destruct body; reflexivity].
  destruct body; reflexivity.
Qed.

(** The incidents of box number [i], tagged. *)
Local Abbreviation tagged reply_for i :=
  (List.map (set_source_region (Z.of_nat i%nat)) (delivered (reply_for i%nat))).

Lemma fetch_loop_closed_form reply_for boxes i all_incidents :
  fetch_loop str_float reply_for i boxes all_incidents
  = Some (all_incidents
          ++ concat (List.map (fun k => tagged reply_for k)
                              (seq i (length boxes)))).
Proof.
  revert i all_incidents. induction boxes as [| box rest IH];
    intros i all_incidents; cbn [fetch_loop length seq List.map concat].
  - rewrite app_nil_r. reflexivity.
  - rewrite fetch_incidents_delivered by apply bbox_str_nonempty.
    destruct (delivered (reply_for i)) as [| first others] eqn:Hd.
    + rewrite IH. reflexivity.
    + rewrite IH. rewrite <- app_assoc. reflexivity.
Qed.

(** X25. Collecting never fails, whatever the service answers: the
    result is the concatenation, in box order, of what each box's answer
    delivers (nothing for a failed request), every incident tagged with the
    1-based number of its box and otherwise unchanged. *)
Theorem fetch_all_closed_form reply_for boxes :
  fetch_all str_float reply_for boxes
  = Some (concat (List.map (fun k => tagged reply_for k)
                           (seq 1 (length boxes))))
  /\ forall collected incident,
       fetch_all str_float reply_for boxes = Some collected ->
       incident ∈ collected ->
       exists (i : nat) original,
         (1 <= i <= length boxes)%nat
         /\ original ∈ delivered (reply_for i)
         /\ incident.(source_region) = Some (Z.of_nat i)
         /\ incident.(incident_type) = original.(incident_type)
         /\ incident.(geometry) = original.(geometry)
         /\ incident.(properties) = original.(properties).
Proof.
  unfold fetch_all. rewrite fetch_loop_closed_form. cbn [app].
  split; [reflexivity |].
  intros collected incident E Hin. injection E as <-.
  apply list_elem_of_In, in_concat in Hin as (l & Hl & Hin).
  apply in_map_iff in Hl as (i & <- & Hi).
  apply in_seq in Hi.
  apply in_map_iff in Hin as (original & <- & Ho).
  exists i, original. split; [lia |].
  split; [apply list_elem_of_In; exact Ho |]. repeat split.
Qed.

Local Abbreviation process engine incident env :=
  (_process_incident format_4f format_3f num_value fromisoformat
     engine incident env).

(** X26. Processing one incident: it is skipped exactly when
    [extract_coordinates] does not yield two numbers, and then the feature
    engine is left untouched; otherwise the record carries the incident
    itself as raw data, a score within [0,10] computed from its own feature
    set, the level that belongs to that score, a party count of 2 exactly
    for category code 1 and of 1 otherwise, a point count of at least 1, and
    a flat feature set that repeats the speed limit, area, lighting and
    coordinates of the full one. *)
Theorem process_incident_contract engine incident env :
  let out := process engine incident env in
  (fst out = None
   <-> ~ exists latitude longitude,
           extract_coordinates incident = Some (VNum latitude, VNum longitude))
  /\ (fst out = None -> snd out = engine)
  /\ forall r,
       fst out = Some r ->
       r.(raw_incident_data) = incident
       /\ r.(risk_assessment).(overall_risk_score)
          = Risk._calculate_risk_score r.(complete_feature_set)
       /\ 0 <= r.(risk_assessment).(overall_risk_score) <= 10
       /\ r.(risk_assessment).(ra_risk_level)
          = Risk.risk_level r.(risk_assessment).(overall_risk_score)
       /\ r.(risk_assessment).(ra_risk_level) ∈ counted_levels
       /\ r.(risk_assessment).(estimated_parties_involved)
          = (if bool_decide (icon_category_of incident = Some 1) then 2 else 1)
       /\ 1 <= r.(incident_metadata).(geometry_points)
       /\ r.(ml_ready_features).(snelheid)
          = r.(location_analysis).(road_infrastructure).(speed_limit)
       /\ r.(ml_ready_features).(gebied)
          = r.(location_analysis).(area_classification)
       /\ r.(ml_ready_features).(ml_lichtgesteldheid)
          = r.(risk_assessment).(lighting_conditions)
       /\ r.(ml_ready_features).(ml_lat) = r.(location_analysis).(la_latitude)
       /\ r.(ml_ready_features).(ml_lon) = r.(location_analysis).(la_longitude).
Proof.
  cbn zeta. unfold _process_incident.
  destruct (extract_coordinates incident) as [[[latitude | ?] [longitude | ?]] |]
    eqn:Hx.
  2-5: cbn; split; [split; [intros _ (? & ? & ?); discriminate | reflexivity] |];
       split; [reflexivity | discriminate].
  pose proof (engineer_features_fields format_3f format_4f fromisoformat engine
                (num_value latitude) (num_value longitude)
                match properties incident with
                | Some p => startTime p
                | None => None
                end (Some incident) env) as (_ & _ & Hlat & Hlon & _).
  pose proof (aantal_partijen_engineered format_3f format_4f fromisoformat engine
                (num_value latitude) (num_value longitude)
                match properties incident with
                | Some p => startTime p
                | None => None
                end (Some incident) env) as Hp.
  cbn zeta in Hlat, Hlon.
  destruct (Engine.engineer_features _ _ _ _ _ _ _ _ _) as [features engine'].
  cbn [fst snd] in *. split; [| split; [discriminate |]].
  { split; [discriminate |]. intros Hno. exfalso. apply Hno. eauto. }
  intros r E. injection E as <-. cbn.
  assert (truthy incident = true) as Htruthy.
  { unfold extract_coordinates in Hx. unfold truthy.
    destruct (geometry incident); [| discriminate].
    destruct (incident_type incident); reflexivity. }
  rewrite Htruthy in Hp.
  pose proof (raw_score_range features) as Hrange.
  repeat match goal with |- _ /\ _ => split end;
    try reflexivity; try (unfold Risk._calculate_risk_score; lia).
  - unfold Risk.risk_level, counted_levels.
    repeat case_match; rewrite !elem_of_cons; tauto.
  - rewrite Hp. unfold Engine._estimate_parties.
    fold (icon_category_of incident). reflexivity.
  - destruct (bool_decide _) eqn:Hls; [| lia].
    apply bool_decide_eq_true in Hls.
    unfold extract_coordinates in Hx. unfold coords_of.
    destruct (geometry incident) as [g |]; [| discriminate].
    rewrite Hls in Hx.
    destruct (coordinates g) as [[xs | pts] |]; cbn in Hx |- *;
      try discriminate.
    + destruct xs; cbn in Hx; [discriminate |]. cbn. lia.
    + destruct pts; cbn in Hx; [discriminate |]. cbn. lia.
  - exact Hlat.
  - exact Hlon.
Qed.

End AppMore.

Section PipelineMore.
Import Incidents App Notions.
Context {num : Type} `{EqDecision num}.
Context (str_float : Q -> string).
Implicit Types (reply_for : nat -> HttpReply (TomTom.IncidentsData num)).
Implicit Types (d : list (IncidentKey num * Incident num)).

(** Two lists of incidents with the same keys, position by position. *)
Local Abbreviation same_keys :=
  (Forall2 (fun a b : Incident num =>
              _generate_incident_key a = _generate_incident_key b)).

Lemma dedup_loop_same_keys (l l' : list (Incident num)) d d' :
  same_keys l l' -> d.*1 = d'.*1 ->
  (dedup_loop d l).*1 = (dedup_loop d' l').*1.
Proof.
  intros Hl. revert d d'. induction Hl as [| a b l l' Hab Hl IH];
    intros d d' Hd; cbn [dedup_loop]; [exact Hd |].
  unfold has_key. rewrite Hab, Hd.
  destruct (bool_decide _); apply IH; [exact Hd |].
  rewrite !fmap_app, Hd. reflexivity.
Qed.

Lemma tagging_same_keys (i : Z) (l : list (Incident num)) :
  same_keys (List.map (set_source_region i) l) l.
Proof. induction l; cbn; constructor; [reflexivity | assumption]. Qed.

Lemma same_keys_concat (ls ls' : list (list (Incident num))) :
  Forall2 same_keys ls ls' -> same_keys (concat ls) (concat ls').
Proof.
  induction 1 as [| l l' ls ls' Hl Hls IH]; cbn; [constructor |].
  apply Forall2_app; assumption.
Qed.

(** X27. The region tag does not influence de-duplication: the keys kept
    for the collected incidents, in order, are the keys kept for the
    untagged answers of the boxes, so which events survive depends only on
    coordinates and category codes. *)
Theorem tagging_does_not_affect_deduplication reply_for boxes collected :
  fetch_all str_float reply_for boxes = Some collected ->
  (_deduplicate_incidents collected).*1
  = (_deduplicate_incidents
       (concat (List.map (fun k => delivered (reply_for k))
                         (seq 1 (length boxes))))).*1.
Proof.
  intros E. unfold fetch_all in E. rewrite fetch_loop_closed_form in E.
  injection E as <-. cbn [app]. unfold _deduplicate_incidents.
  apply dedup_loop_same_keys; [| reflexivity].
  apply same_keys_concat.
  generalize (seq 1 (length boxes)) as ks.
  induction ks as [| k ks IH]; cbn; constructor; [| exact IH].
  apply tagging_same_keys.
Qed.

End PipelineMore.

Section SummaryMore.
Import Incidents App Notions.
Context {num : Type}.
Implicit Types (results : list (@ProcessedIncident num)).
Implicit Types (risk_levels regions : gmap string Z).

Lemma total_count_insert regions region :
  total_count (<[region := default 0 (regions !! region) + 1]> regions)
  = total_count regions + 1.
Proof.
  unfold total_count.
  assert (forall (m : gmap string Z) (j1 j2 : string) (z1 z2 y : Z),
             j1 <> j2 -> m !! j1 = Some z1 -> m !! j2 = Some z2 ->
             z1 + (z2 + y) = z2 + (z1 + y)) as Hcomm by (intros; lia).
  destruct (regions !! region) as [n |] eqn:Hr; cbn [default from_option id].
  - rewrite <- insert_delete_eq.
    rewrite map_fold_insert_L; [| apply Hcomm | apply lookup_delete_eq].
    rewrite (map_fold_delete_L _ _ region n regions); [lia | apply Hcomm | exact Hr].
  - rewrite map_fold_insert_L; [lia | apply Hcomm | exact Hr].
Qed.

Lemma count_loop_totals results risk_levels regions h m l :
  risk_levels !! "High" = Some h -> risk_levels !! "Medium" = Some m ->
  risk_levels !! "Low" = Some l ->
  Forall (fun r => r.(risk_assessment).(ra_risk_level) ∈ counted_levels) results ->
  exists risk_levels' regions' h' m' l',
    count_loop risk_levels regions results = Some (risk_levels', regions')
    /\ risk_levels' !! "High" = Some h'
    /\ risk_levels' !! "Medium" = Some m'
    /\ risk_levels' !! "Low" = Some l'
    /\ h <= h' /\ m <= m' /\ l <= l'
    /\ h' + m' + l' = h + m + l + Z.of_nat (length results)
    /\ total_count regions' = total_count regions + Z.of_nat (length results).
Proof.
  intros Hh Hm Hl Hok. revert risk_levels regions h m l Hh Hm Hl.
  induction Hok as [| r results Hr Hok IH]; intros risk_levels regions h m l Hh Hm Hl.
  - exists risk_levels, regions, h, m, l. cbn. repeat split; try assumption; lia.
  - cbn [count_loop length].
    unfold counted_levels in Hr. rewrite !elem_of_cons, elem_of_nil in Hr.
    set (regions1 := <[_ := _]> regions).
    assert (total_count regions1 = total_count regions + 1) as Ht
      by apply total_count_insert.
    destruct Hr as [-> | [-> | [-> | []]]].
    + rewrite Hh.
      destruct (IH (<["High" := h + 1]> risk_levels) regions1 (h + 1) m l)
        as (rl & rg & h' & m' & l' & E & ? & ? & ? & ? & ? & ? & ? & ?).
      * apply lookup_insert_eq.
      * rewrite lookup_insert_ne by discriminate. exact Hm.
      * rewrite lookup_insert_ne by discriminate. exact Hl.
      * exists rl, rg, h', m', l'. repeat split; try assumption; lia.
    + rewrite Hm.
      destruct (IH (<["Medium" := m + 1]> risk_levels) regions1 h (m + 1) l)
        as (rl & rg & h' & m' & l' & E & ? & ? & ? & ? & ? & ? & ? & ?).
      * rewrite lookup_insert_ne by discriminate. exact Hh.
      * apply lookup_insert_eq.
      * rewrite lookup_insert_ne by discriminate. exact Hl.
      * exists rl, rg, h', m', l'. repeat split; try assumption; lia.
    + rewrite Hl.
      destruct (IH (<["Low" := l + 1]> risk_levels) regions1 h m (l + 1))
        as (rl & rg & h' & m' & l' & E & ? & ? & ? & ? & ? & ? & ? & ?).
      * rewrite lookup_insert_ne by discriminate. exact Hh.
      * rewrite lookup_insert_ne by discriminate. exact Hm.
      * apply lookup_insert_eq.
      * exists rl, rg, h', m', l'. repeat split; try assumption; lia.
Qed.

(** X28. The summary counts add up: for results whose level is one of
    High, Medium and Low (as every processed incident's is) counting never
    fails, the three level counts are non-negative and sum to the number of
    results, and so do the counts per region. *)
Theorem summary_counts_add_up results :
  Forall (fun r => r.(risk_assessment).(ra_risk_level) ∈ counted_levels) results ->
  exists risk_levels regions high medium low,
    summary_counts results = Some (risk_levels, regions)
    /\ risk_levels !! "High" = Some high
    /\ risk_levels !! "Medium" = Some medium
    /\ risk_levels !! "Low" = Some low
    /\ 0 <= high /\ 0 <= medium /\ 0 <= low
    /\ high + medium + low = Z.of_nat (length results)
    /\ total_count regions = Z.of_nat (length results).
Proof.
  intros Hok. unfold summary_counts.
  destruct (count_loop_totals results
              (<["High" := 0]> (<["Medium" := 0]> (<["Low" := 0]> ∅))) ∅ 0 0 0)
    as (rl & rg & h & m & l & E & Hh & Hm & Hl & ? & ? & ? & Hsum & Htot).
  - reflexivity.
  - reflexivity.
  - reflexivity.
  - exact Hok.
  - assert (total_count (∅ : gmap string Z) = 0) as Hempty
      by (unfold total_count; apply map_fold_empty).
    exists rl, rg, h, m, l. repeat split; try assumption; lia.
Qed.

End SummaryMore.

(** The accident delivered by boxes 1 and 2 is kept once, as it is for the
    untagged answers. *)
Lemma tagging_does_not_affect_deduplication_witness :
  (Incidents._deduplicate_incidents
     [ Samples.accident "Point" (Incidents.Position [4; 52]) 1;
       Samples.accident "Point" (Incidents.Position [4; 52]) 2 ]).*1
  = (Incidents._deduplicate_incidents
       (concat (List.map (fun k => Notions.delivered (Samples.overlapping_replies k))
                         (seq 1 (length (firstn 3 App.coverage_boxes)))))).*1.
Proof.
  apply (tagging_does_not_affect_deduplication Samples.constant_format
           Samples.overlapping_replies (firstn 3 App.coverage_boxes)).
  reflexivity.
Defined.

(** Two processed records: the counting succeeds and the counts add up
    to 2. *)
Lemma summary_counts_add_up_witness :
  length Samples.two_results = 2%nat
  /\ exists risk_levels regions high medium low,
       App.summary_counts Samples.two_results = Some (risk_levels, regions)
       /\ risk_levels !! "High" = Some high
       /\ risk_levels !! "Medium" = Some medium
       /\ risk_levels !! "Low" = Some low
       /\ 0 <= high /\ 0 <= medium /\ 0 <= low
       /\ high + medium + low = Z.of_nat (length Samples.two_results)
       /\ App.total_count regions = Z.of_nat (length Samples.two_results).
Proof.
  split; [reflexivity |].
  apply summary_counts_add_up.
  repeat constructor.
Defined.
